(** * OPAL fetch provider for Nginx/Ceph bundles: model and properties

    Shallow embedding of [opal_fetcher_ceph/provider.py].  The provider
    downloads a gzip-compressed tar archive over HTTP, picks a member whose
    name ends in [.json] and hands its bytes to [json.loads].

    Layout of the development:
    - Python values, exceptions, observable events and the state and
      exception monad of the methods;
    - the class [Runtime]: what the provider needs from the Python
      libraries it calls (urllib, tarfile/gzip, json);
    - section [Provider]: the classes and methods of provider.py, generic
      in the runtime;
    - module [RefRuntime]: an executable instance of [Runtime] (stored-block
      gzip members around ustar archives, a JSON reader), used to run the
      provider on concrete archives;
    - the properties, first for every runtime, then on concrete archives. *)

From Stdlib Require Import ZArith NArith Lia Bool.
From Stdlib Require Import Strings.Byte.
From stdpp Require Import gmap strings list.

Set Default Proof Using "Type".
Local Open Scope string_scope.
Local Open Scope list_scope.
#[local] Set Warnings "-abstract-large-number".

(* ===================================================================== *)
(** * Python values, exceptions and effects                               *)
(* ===================================================================== *)

Abbreviation bytes := (list byte).

Global Instance byte_eq_decision : EqDecision byte := Byte.byte_eq_dec.

(** Exceptions the provider can let escape.  [AttributeError] carries the
    attribute name, as the Python exception does. *)
Inductive exn :=
| URLError                       (* urllib.error.URLError: the open failed *)
| ValueError                     (* I/O operation on closed file *)
| ReadError                      (* tarfile.ReadError *)
| EOFError                       (* truncated compressed stream *)
| IndexError                     (* list index out of range *)
| KeyError                       (* tarfile: member name not found *)
| AttributeError (attr : string)
| TypeError
| JSONDecodeError.

(** [NginxCephFetcherConfig(FetcherConfig)] declares the single field
    [fetcher]; everything else comes from the host framework's
    [FetcherConfig], which is not part of the repository.  [cfg_inherited]
    holds those inherited fields: a missing key is a missing attribute,
    [Some None] is a field holding Python's [None], [Some (Some d)] a
    parameter object whose [.dict(exclude_none=True)] is [d]. *)
Record NginxCephFetcherConfig := {
  cfg_fetcher : string;
  cfg_inherited : gmap string (option (list (string * string)))
}.

(** [NginxCephFetchEvent(FetchEvent)]: [fetcher] and [config] are declared in
    provider.py ([config] defaults to [None]); [url] is the field of the host
    framework's [FetchEvent] that the provider reads. *)
Record NginxCephFetchEvent := {
  url : option string;
  fetcher : string;
  config : option NginxCephFetcherConfig
}.

(** Python values.  [PyCoroutine u] is a coroutine object: the call
    [self.fetch_tar_file_data(u)] of an [async def], created but not yet
    awaited; it is the only coroutine the provider creates. *)
#[local] Set Warnings "-register-all".
Inductive pyvalue :=
| PyNone
| PyBool (b : bool)
| PyInt (z : Z)
| PyStr (s : string)
| PyBytes (b : bytes)
| PyList (l : list pyvalue)
| PyDict (items : list (string * pyvalue))
| PyEvent (e : NginxCephFetchEvent)
| PyConnection                   (* an asyncpg.Connection *)
| PyTransaction                  (* an asyncpg Transaction *)
| PyCoroutine (u : pyvalue).
#[local] Set Warnings "+register-all".

(** Resources a fetch acquires. *)
Inductive resource := NetStream | MemBuffer | ArchiveReader.

Global Instance resource_eq_dec : EqDecision resource :=
  ltac:(solve_decision).

(** Observable events, in program order. *)
Inductive event :=
| EvUrlopen (u : pyvalue)        (* urllib.request.urlopen(u) is called *)
| EvOpened (r : resource)
| EvClosed (r : resource)
| EvRead (asked got : nat)       (* ftpstream.read(asked) returned got bytes *)
| EvArchiveOpen (input : bytes)  (* tarfile.open starts reading input *)
| EvWarning (msg : string)       (* logger.warning *)
| EvDebug (msg : string) (arg : pyvalue).  (* logger.debug(f"msg{arg}") *)

(** The provider instance: its attribute dictionary, and the event log. *)
Record World := {
  attrs : gmap string pyvalue;
  trace : list event
}.

Inductive result (A : Type) :=
| Ok (a : A)
| Raise (e : exn)
| OutOfFuel.
Arguments Ok {A} a.
Arguments Raise {A} e.
Arguments OutOfFuel {A}.

(** State and exception monad of the methods. *)
Definition M (A : Type) : Type := World -> result A * World.

Definition ret {A} (a : A) : M A := fun w => (Ok a, w).
Definition raise {A} (e : exn) : M A := fun w => (Raise e, w).
Definition out_of_fuel {A} : M A := fun w => (OutOfFuel, w).

Definition bind {A B} (m : M A) (k : A -> M B) : M B :=
  fun w =>
    match m w with
    | (Ok a, w') => k a w'
    | (Raise e, w') => (Raise e, w')
    | (OutOfFuel, w') => (OutOfFuel, w')
    end.

Declare Scope py_scope.
Delimit Scope py_scope with py.
Notation "x <- m ;; k" := (bind m (fun x => k))
  (at level 100, m at next level, right associativity) : py_scope.
Notation "m ;;; k" := (bind m (fun _ => k))
  (at level 100, right associativity) : py_scope.
Local Open Scope py_scope.

Definition emit (e : event) : M unit :=
  fun w => (Ok tt, {| attrs := attrs w; trace := trace w ++ [e] |}).

(** [w] after the events [evs] have been appended to its log. *)
Definition logged (w : World) (evs : list event) : World :=
  {| attrs := attrs w; trace := trace w ++ evs |}.

(** [self.name]: instance attribute lookup. *)
Definition getattr_self (name : string) : M pyvalue :=
  fun w =>
    match attrs w !! name with
    | Some v => (Ok v, w)
    | None => (Raise (AttributeError name), w)
    end.

(** [self.name = v]. *)
Definition setattr_self (name : string) (v : pyvalue) : M unit :=
  fun w => (Ok tt, {| attrs := <[name := v]> (attrs w); trace := trace w |}).

(** Loop control: what one pass through a [while True:] body does. *)
Inductive ctl (S R : Type) :=
| Next (s : S)                   (* the body ran to its end *)
| Break                          (* break *)
| Return (r : R).                (* return r *)
Arguments Next {S R} s.
Arguments Break {S R}.
Arguments Return {S R} r.

(** [while True: body]; [None] when the loop was left by [break]. *)
Fixpoint while_true {S R} (fuel : nat) (body : S -> M (ctl S R)) (s : S)
  : M (option R) :=
  match fuel with
  | O => out_of_fuel
  | Datatypes.S fuel' =>
      c <- body s ;;
      match c with
      | Next s' => while_true fuel' body s'
      | Break => ret None
      | Return r => ret (Some r)
      end
  end.

(** [l[i]] on a Python list. *)
Definition list_index {A} (l : list A) (i : nat) : M A :=
  match l !! i with
  | Some x => ret x
  | None => raise IndexError
  end.

(** Size of one [ftpstream.read] request (the literal of line 139). *)
Definition CHUNK : nat := N.to_nat 16384.

(** [s.endswith(suffix)]. *)
Definition endswith (s suffix : string) : bool :=
  let n := String.length s in
  let m := String.length suffix in
  if (m <=? n)%nat then String.eqb (String.substring (n - m) m s) suffix
  else false.

(* ===================================================================== *)
(** * The libraries the provider calls                                    *)
(* ===================================================================== *)

(** Member types of a tar archive ([tarfile.REGTYPE], ...).  Link members
    are not modelled. *)
Inductive tartype := REGTYPE | DIRTYPE | FIFOTYPE | CHRTYPE | BLKTYPE.

(** [tarfile.TarInfo] together with the member's stored content. *)
Record TarInfo := {
  name : string;
  type : tartype;
  data : bytes
}.

(** What the provider needs from urllib, tarfile/gzip and json.
    - [urlopen_body u]: the body served at [u]; [None] when the open fails.
    - [tarfile_members b]: the member table that [tarfile.open(fileobj,
      mode="r:gz")] and the [getnames()] call right after it read from the
      bytes [b], or the exception with which they fail.
    - [json_decode b]: [json.loads] on the bytes [b]. *)
Class Runtime := {
  urlopen_body : string -> option bytes;
  tarfile_members : bytes -> exn + list TarInfo;
  json_decode : bytes -> exn + pyvalue
}.

(** [http.client.HTTPResponse] as returned by [urlopen]. *)
Record HTTPResponse := {
  unread : bytes;
  resp_closed : bool
}.

(** [io.BytesIO]. *)
Record BytesIO := {
  buf : bytes;
  pos : nat;
  buf_closed : bool
}.

(** An open [tarfile.TarFile]. *)
Record TarFile := {
  members : list TarInfo
}.

(** [TarFile.getnames()]: the names in stored order. *)
Definition getnames (t : TarFile) : list string := map name (members t).

(** [TarFile.getmember(n)]: the member table is searched from its end, so a
    name stored more than once denotes its last occurrence. *)
Definition getmember (t : TarFile) (n : string) : option TarInfo :=
  List.find (fun m => String.eqb (name m) n) (rev (members t)).

(** [ftpstream.read(n)]: at most [n] bytes; [b''] at the end of the body and
    on a closed response. *)
Definition stream_read (r : HTTPResponse) (n : nat) : M (bytes * HTTPResponse) :=
  if resp_closed r then
    emit (EvRead n 0) ;;; ret ([], r)
  else
    let s := take n (unread r) in
    emit (EvRead n (length s)) ;;;
    ret (s, {| unread := drop n (unread r); resp_closed := false |}).

(** [ftpstream.close()]. *)
Definition stream_close (r : HTTPResponse) : M HTTPResponse :=
  emit (EvClosed NetStream) ;;;
  ret {| unread := unread r; resp_closed := true |}.

(** [BytesIO()]. *)
Definition BytesIO_new : M BytesIO :=
  emit (EvOpened MemBuffer) ;;;
  ret {| buf := []; pos := 0; buf_closed := false |}.

(** [tmpfile.write(s)]: overwrite at the current position, extending the
    buffer (zero-filled up to the position when it lies past the end). *)
Definition BytesIO_write (f : BytesIO) (s : bytes) : M BytesIO :=
  if buf_closed f then raise ValueError
  else
    ret {| buf := take (pos f) (buf f)
                  ++ replicate (pos f - length (buf f)) x00
                  ++ s ++ drop (pos f + length s) (buf f);
           pos := pos f + length s;
           buf_closed := false |}.

(** [tmpfile.seek(p)]. *)
Definition BytesIO_seek (f : BytesIO) (p : nat) : M BytesIO :=
  if buf_closed f then raise ValueError
  else ret {| buf := buf f; pos := p; buf_closed := false |}.

(** [tmpfile.close()]. *)
Definition BytesIO_close (f : BytesIO) : M unit :=
  emit (EvClosed MemBuffer).

(** [tfile.close()]. *)
Definition TarFile_close (t : TarFile) : M unit :=
  emit (EvClosed ArchiveReader).

(** [tfile.extractfile(n)]: a file object on the content of a regular
    member, Python's [None] for the other member types, [KeyError] for an
    unknown name. *)
Definition extractfile (t : TarFile) (n : string) : M (option bytes) :=
  match getmember t n with
  | None => raise KeyError
  | Some m =>
      match type m with
      | REGTYPE => ret (Some (data m))
      | _ => ret None
      end
  end.

(** [f.read()] on what [extractfile] returned. *)
Definition extracted_read (f : option bytes) : M bytes :=
  match f with
  | Some b => ret b
  | None => raise (AttributeError "read")
  end.

(** A library call that returns or raises. *)
Definition of_sum {A} (r : exn + A) : M A :=
  match r with
  | inl e => raise e
  | inr a => ret a
  end.

(* ===================================================================== *)
(** * provider.py                                                         *)
(* ===================================================================== *)

(** [tenacity] settings, as data. *)
Inductive wait_strategy := wait_random_exponential.
Record retry_config := {
  rc_wait : wait_strategy;
  rc_stop_after_attempt : nat;
  rc_retry_unless_exception_type : string;
  rc_reraise : bool
}.

(** Class attribute [NginxCephFetchProvider.RETRY_CONFIG]. *)
Definition RETRY_CONFIG : retry_config :=
  {| rc_wait := wait_random_exponential;
     rc_stop_after_attempt := 10;
     rc_retry_unless_exception_type := "DataError";
     rc_reraise := true |}.

(** The [url] field as a Python value. *)
Definition py_of_url (u : option string) : pyvalue :=
  match u with
  | Some s => PyStr s
  | None => PyNone
  end.

(** [parse_event]: rebuilds the event field by field. *)
Definition parse_event (e : NginxCephFetchEvent) : NginxCephFetchEvent :=
  {| url := url e; fetcher := fetcher e; config := config e |}.

(** [__init__]: [super().__init__(event)].  The base class constructor
    belongs to the host framework; by its contract it stores the parsed
    event as [_event] and the event's url as [_url]. *)
Definition __init__ (e : NginxCephFetchEvent) : World :=
  {| attrs := <["_url" := py_of_url (url e)]>
              (<["_event" := PyEvent (parse_event e)]> ∅);
     trace := [] |}.

(** [self._event], read for one of the event's attributes; a value that is
    not an event has none of them. *)
Definition self_event : M NginxCephFetchEvent :=
  v <- getattr_self "_event" ;;
  match v with
  | PyEvent e => ret e
  | _ => raise (AttributeError "url")
  end.

Section Provider.
Context `{Runtime}.

(** [urllib.request.urlopen(url)].  A value that is not a string is taken
    for a request object, and fails on its first attribute access. *)
Definition urlopen (u : pyvalue) : M HTTPResponse :=
  emit (EvUrlopen u) ;;;
  match u with
  | PyStr s =>
      match urlopen_body s with
      | Some body =>
          emit (EvOpened NetStream) ;;;
          ret {| unread := body; resp_closed := false |}
      | None => raise URLError
      end
  | _ => raise (AttributeError "timeout")
  end.

(** [tarfile.open(fileobj=f, mode="r:gz")]: reads from the current position
    of [f]. *)
Definition tarfile_open (f : BytesIO) : M TarFile :=
  if buf_closed f then raise ValueError
  else
    let input := drop (pos f) (buf f) in
    emit (EvArchiveOpen input) ;;;
    ms <- of_sum (tarfile_members input) ;;
    emit (EvOpened ArchiveReader) ;;;
    ret {| members := ms |}.

(** One pass through the body of the [while True:] of
    [fetch_tar_file_data] (lines 138-172); the loop state is the response
    and the buffer. *)
Definition fetch_loop_body (st : HTTPResponse * BytesIO)
  : M (ctl (HTTPResponse * BytesIO) pyvalue) :=
  let ftpstream := st.1 in
  let tmpfile := st.2 in
  rd <- stream_read ftpstream CHUNK ;;
  let s := rd.1 in
  let ftpstream := rd.2 in
  if bool_decide (s = []) then ret Break
  else
    tmpfile <- BytesIO_write tmpfile s ;;
    ftpstream <- stream_close ftpstream ;;
    tmpfile <- BytesIO_seek tmpfile 0 ;;
    tfile <- tarfile_open tmpfile ;;
    let tfile_data :=
      List.filter (fun filename => endswith filename ".json")
                  (getnames tfile) in
    first <- list_index tfile_data 0 ;;
    tfile_extract1 <- extractfile tfile first ;;
    tfile_extract1_text <- extracted_read tfile_extract1 ;;
    TarFile_close tfile ;;;
    BytesIO_close tmpfile ;;;
    ret (Return (PyBytes tfile_extract1_text)).

(** [fetch_tar_file_data(url)], the body that runs when the coroutine is
    awaited.  A loop left by [break] falls off the end of the function,
    which returns [None]. *)
Definition fetch_tar_file_data (fuel : nat) (u : pyvalue) : M pyvalue :=
  ftpstream <- urlopen u ;;
  tmpfile <- BytesIO_new ;;
  r <- while_true fuel fetch_loop_body (ftpstream, tmpfile) ;;
  match r with
  | Some v => ret v
  | None => ret PyNone
  end.

(** [await v]. *)
Definition await (fuel : nat) (v : pyvalue) : M pyvalue :=
  match v with
  | PyCoroutine u => fetch_tar_file_data fuel u
  | _ => raise TypeError
  end.

(** [_fetch_]: [fetch_tar_file_data] is called, not awaited, so [data] is
    the coroutine object. *)
Definition _fetch_ : M pyvalue :=
  e <- self_event ;;
  match url e with
  | None =>
      emit (EvWarning "incomplete fetcher config: fetcher require a url to specify from where data to fetch!") ;;;
      ret PyNone
  | Some _ =>
      u <- getattr_self "_url" ;;
      emit (EvDebug "NginxCephFetchProvider fetching from " u) ;;;
      u <- getattr_self "_url" ;;
      let data := PyCoroutine u in
      ret data
  end.

(** [json.loads(data)]: text and bytes are parsed, anything else is a
    [TypeError]. *)
Definition json_loads (v : pyvalue) : M pyvalue :=
  match v with
  | PyStr s => of_sum (json_decode (String.list_byte_of_string s))
  | PyBytes b => of_sum (json_decode b)
  | _ => raise TypeError
  end.

(** [_process_(data)]. *)
Definition _process_ (v : pyvalue) : M pyvalue := json_loads v.

(** [self._event.config.connection_params] *)
Definition event_connection_params (e : NginxCephFetchEvent)
  : M (option (list (string * string))) :=
  match config e with
  | None => raise (AttributeError "connection_params")
  | Some c =>
      match cfg_inherited c !! "connection_params" with
      | None => raise (AttributeError "connection_params")
      | Some p => ret p
      end
  end.

(** [__aenter__] (lines 85-99); the instance it returns is the state. *)
Definition __aenter__ : M unit :=
  e <- self_event ;;
  let dsn := url e in
  p <- event_connection_params e ;;
  let connection_params :=
    match p with
    | None => []
    | Some d => d
    end in
  c <- getattr_self "_connection" ;;
  t <- match c with
       | PyConnection => ret PyTransaction
       | _ => raise (AttributeError "transaction")
       end ;;
  setattr_self "_transaction" t ;;;
  t <- getattr_self "_transaction" ;;
  match t with
  | PyTransaction => ret tt
  | _ => raise (AttributeError "__aenter__")
  end.

(** [__aexit__] (lines 101-107). *)
Definition __aexit__ : M unit :=
  t <- getattr_self "_transaction" ;;
  match t with
  | PyNone => ret tt
  | PyTransaction => ret tt
  | _ => raise (AttributeError "__aexit__")
  end ;;;
  c <- getattr_self "_connection" ;;
  match c with
  | PyNone => ret tt
  | PyConnection => ret tt
  | _ => raise (AttributeError "close")
  end.

End Provider.

(* ===================================================================== *)
(** * An executable runtime                                               *)
(* ===================================================================== *)

(** An instance of [Runtime] that reads real archives of a small, exactly
    delimited kind, so that the provider can be run on concrete bytes:
    - gzip members with flag byte 0 whose DEFLATE stream consists of stored
      blocks (what zlib writes at compression level 0), CRC-32 and length
      trailer checked;
    - ustar archives of regular files, directories and special files, with
      octal size fields;
    - JSON texts in ASCII made of objects, arrays, strings without escapes,
      integers, [true], [false] and [null].
    Inputs outside that kind are answered with an exception; the instance is
    only run on inputs inside it. *)
Module RefRuntime.

Definition b2n (b : byte) : N := Byte.to_N b.

Definition n2b (n : N) : byte :=
  match Byte.of_N (n mod 256) with
  | Some b => b
  | None => x00
  end.

(** Little-endian encodings. *)
Definition le16 (n : N) : bytes := [n2b n; n2b (n / 256)].
Definition le32 (n : N) : bytes :=
  [n2b n; n2b (n / 256); n2b (n / 65536); n2b (n / 16777216)].

Definition of_le (bs : bytes) : N :=
  fold_right (fun b acc => b2n b + 256 * acc)%N 0%N bs.

(** CRC-32 (reflected polynomial EDB88320), one bit at a time. *)
Definition crc32_bit (c : N) : N :=
  if N.odd c then N.lxor (N.shiftr c 1) 3988292384 else N.shiftr c 1.

Definition crc32_byte (c : N) (b : byte) : N :=
  let c := N.lxor c (b2n b) in
  crc32_bit (crc32_bit (crc32_bit (crc32_bit
    (crc32_bit (crc32_bit (crc32_bit (crc32_bit c))))))).

Definition crc32 (bs : bytes) : N :=
  N.lxor (fold_left crc32_byte bs 4294967295%N) 4294967295%N.

(** ** gzip, stored blocks *)

Definition gzip_header : bytes :=
  [x1f; x8b; x08; x00; x00; x00; x00; x00; x00; xff].

(** The payload as stored blocks of at most 65535 bytes, the last one
    flagged final. *)
Fixpoint stored_blocks (fuel : nat) (payload : bytes) : bytes :=
  match fuel with
  | O => []
  | S fuel' =>
      let blk := take 65535 payload in
      let rest := drop 65535 payload in
      let len := N.of_nat (length blk) in
      let final := bool_decide (rest = []) in
      [if final then x01 else x00]
        ++ le16 len ++ le16 (N.lxor len 65535) ++ blk
        ++ (if final then [] else stored_blocks fuel' rest)
  end.

Definition gzip_store (payload : bytes) : bytes :=
  gzip_header
    ++ stored_blocks (S (length payload)) payload
    ++ le32 (crc32 payload)
    ++ le32 (N.of_nat (length payload) mod 4294967296).

(** Reads stored blocks; returns the payload and what follows the final
    block. *)
Fixpoint inflate_stored (fuel : nat) (bs : bytes) (acc : bytes)
  : exn + (bytes * bytes) :=
  match fuel with
  | O => inl EOFError
  | S fuel' =>
      match bs with
      | h :: l0 :: l1 :: n0 :: n1 :: rest =>
          let len := of_le [l0; l1] in
          if negb (N.eqb (N.land (N.shiftr (b2n h) 1) 3) 0) then inl ReadError
          else if negb (N.eqb (N.lxor len 65535) (of_le [n0; n1])) then
            inl ReadError
          else if (length rest <? N.to_nat len)%nat then inl EOFError
          else
            let acc := acc ++ take (N.to_nat len) rest in
            let rest := drop (N.to_nat len) rest in
            if N.odd (b2n h) then inr (acc, rest)
            else inflate_stored fuel' rest acc
      | _ => inl EOFError
      end
  end.

Definition gunzip (bs : bytes) : exn + bytes :=
  match bs with
  | x1f :: x8b :: x08 :: x00 :: _ :: _ :: _ :: _ :: _ :: _ :: body =>
      match inflate_stored (S (length body)) body [] with
      | inl e => inl e
      | inr (payload, trailer) =>
          if (length trailer <? 8)%nat then inl EOFError
          else if N.eqb (of_le (take 4 trailer)) (crc32 payload)
               && N.eqb (of_le (take 4 (drop 4 trailer)))
                        (N.of_nat (length payload) mod 4294967296)
          then inr payload
          else inl ReadError
      end
  | _ => inl ReadError
  end.

(** ** ustar *)

Definition zeros (n : nat) : bytes := replicate n x00.

(** [bs] in a field of [n] bytes, NUL-padded. *)
Definition field (n : nat) (bs : bytes) : bytes :=
  take n bs ++ zeros (n - length bs).

(** [w] octal digits of [n], most significant first. *)
Fixpoint octal (w : nat) (n : N) : bytes :=
  match w with
  | O => []
  | S w' => octal w' (n / 8) ++ [n2b (48 + n mod 8)]
  end.

Definition typeflag (t : tartype) : byte :=
  match t with
  | REGTYPE => x30
  | CHRTYPE => x33
  | BLKTYPE => x34
  | DIRTYPE => x35
  | FIFOTYPE => x36
  end.

Definition sum_bytes (bs : bytes) : N :=
  fold_right (fun b acc => b2n b + acc)%N 0%N bs.

(** Header checksum: the sum of the 512 header bytes with the checksum
    field itself (offsets 148-155) counted as eight spaces. *)
Definition header_chksum (hdr : bytes) : N :=
  (sum_bytes (take 148 hdr) + 8 * 32 + sum_bytes (drop 156 hdr))%N.

(** The 512-byte header of a member. *)
Definition header (m : TarInfo) : bytes :=
  let size :=
    match type m with
    | REGTYPE => N.of_nat (length (data m))
    | _ => 0%N
    end in
  let stored_name :=
    match type m with
    | DIRTYPE => String.list_byte_of_string (name m) ++ [x2f]
    | _ => String.list_byte_of_string (name m)
    end in
  let before :=
    field 100 stored_name
      ++ octal 7 420 ++ [x00]                 (* mode 0644 *)
      ++ octal 7 0 ++ [x00]                   (* uid *)
      ++ octal 7 0 ++ [x00]                   (* gid *)
      ++ octal 11 size ++ [x00]
      ++ octal 11 0 ++ [x00] in               (* mtime *)
  let after :=
    [typeflag (type m)]
      ++ zeros 100                            (* linkname *)
      ++ [x75; x73; x74; x61; x72; x00]       (* magic ustar *)
      ++ [x30; x30]                           (* version 00 *)
      ++ zeros 32 ++ zeros 32                 (* uname, gname *)
      ++ octal 7 0 ++ [x00]                   (* devmajor *)
      ++ octal 7 0 ++ [x00]                   (* devminor *)
      ++ zeros 155                            (* prefix *)
      ++ zeros 12 in
  let chk := (sum_bytes before + 8 * 32 + sum_bytes after)%N in
  before ++ octal 6 chk ++ [x00; x20] ++ after.

(** Content padded to whole 512-byte blocks. *)
Definition blocks (bs : bytes) : bytes :=
  bs ++ zeros ((512 - length bs mod 512) mod 512).

Definition member_blocks (m : TarInfo) : bytes :=
  header m ++
  match type m with
  | REGTYPE => blocks (data m)
  | _ => []
  end.

(** The archive: the members, then two zero blocks. *)
Definition tar_pack (ms : list TarInfo) : bytes :=
  concat (map member_blocks ms) ++ zeros 1024.

(** A NUL-terminated field. *)
Fixpoint nts (bs : bytes) : bytes :=
  match bs with
  | [] => []
  | b :: bs' => if bool_decide (b = x00) then [] else b :: nts bs'
  end.

Fixpoint lstrip (bs : bytes) : bytes :=
  match bs with
  | x20 :: bs' => lstrip bs'
  | _ => bs
  end.

Definition strip (bs : bytes) : bytes := rev (lstrip (rev (lstrip bs))).

(** A numeric field: octal digits, spaces around them allowed. *)
Definition nti (fld : bytes) : option N :=
  fold_left
    (fun acc b =>
       match acc with
       | None => None
       | Some n =>
           if (48 <=? b2n b)%N && (b2n b <=? 55)%N
           then Some (8 * n + (b2n b - 48))%N
           else None
       end)
    (strip (nts fld)) (Some 0%N).

Definition type_of_flag (b : byte) : option tartype :=
  match b with
  | x00 | x30 => Some REGTYPE
  | x33 => Some CHRTYPE
  | x34 => Some BLKTYPE
  | x35 => Some DIRTYPE
  | x36 => Some FIFOTYPE
  | _ => None
  end.

Fixpoint rstrip_slash (rev_name : bytes) : bytes :=
  match rev_name with
  | x2f :: r => rstrip_slash r
  | _ => rev_name
  end.

(** Reads the member table.  [first] tells whether the header at hand is
    the first of the archive: a bad first header is an error, a bad later
    one ends the archive, as does a block of zeros. *)
Fixpoint tar_unpack (fuel : nat) (first : bool) (bs : bytes)
  : exn + list TarInfo :=
  match fuel with
  | O => inl ReadError
  | S fuel' =>
      let hdr := take 512 bs in
      let rest := drop 512 bs in
      let bad := if first then inl ReadError else inr [] in
      if (length hdr <? 512)%nat then bad
      else if bool_decide (hdr = zeros 512) then inr []
      else
        match nti (take 8 (drop 148 hdr)), nti (take 12 (drop 124 hdr)),
              type_of_flag (nth 156 hdr x00) with
        | Some chk, Some size, Some ty =>
            if negb (N.eqb chk (header_chksum hdr)) then bad
            else
              let prefix := nts (take 155 (drop 345 hdr)) in
              let base := nts (take 100 hdr) in
              let full :=
                match prefix with
                | [] => base
                | _ => prefix ++ [x2f] ++ base
                end in
              let ty :=
                match ty, rev full with
                | REGTYPE, x2f :: _ =>
                    if bool_decide (nth 156 hdr x00 = x00) then DIRTYPE
                    else REGTYPE
                | _, _ => ty
                end in
              let full :=
                match ty with
                | DIRTYPE => rev (rstrip_slash (rev full))
                | _ => full
                end in
              let n := N.to_nat size in
              match ty with
              | REGTYPE =>
                  if (length rest <? n)%nat then inl ReadError
                  else
                    let m := {| name := String.string_of_list_byte full;
                                type := ty;
                                data := take n rest |} in
                    match
                      tar_unpack fuel' false
                        (drop (n + (512 - n mod 512) mod 512) rest)
                    with
                    | inl e => inl e
                    | inr ms => inr (m :: ms)
                    end
              | _ =>
                  let m := {| name := String.string_of_list_byte full;
                              type := ty;
                              data := [] |} in
                  match tar_unpack fuel' false rest with
                  | inl e => inl e
                  | inr ms => inr (m :: ms)
                  end
              end
        | Some _, Some _, None => inl ReadError
        | _, _, _ => bad
        end
  end.

(** [tarfile.open(mode="r:gz")] and the loading of the member table. *)
Definition ref_tarfile_members (bs : bytes) : exn + list TarInfo :=
  match gunzip bs with
  | inl e => inl e
  | inr payload => tar_unpack (S (length payload)) true payload
  end.

(** A gzip-compressed tar archive with the given members. *)
Definition targz (ms : list TarInfo) : bytes := gzip_store (tar_pack ms).

(** [s] with every apostrophe replaced by a double quote, to write JSON
    texts as string literals. *)
Fixpoint dq (s : string) : string :=
  match s with
  | EmptyString => EmptyString
  | String c r =>
      String (if Ascii.eqb c (Ascii.ascii_of_nat 39)
              then Ascii.ascii_of_nat 34 else c) (dq r)
  end.

Definition file (n : string) (content : string) : TarInfo :=
  {| name := n; type := REGTYPE;
     data := String.list_byte_of_string content |}.

(** ** JSON *)

Fixpoint skip_ws (bs : bytes) : bytes :=
  match bs with
  | x20 :: r | x09 :: r | x0a :: r | x0d :: r => skip_ws r
  | _ => bs
  end.

Definition is_digit (b : byte) : bool :=
  (48 <=? b2n b)%N && (b2n b <=? 57)%N.

(** The characters of a string up to its closing quote; [acc] holds the
    characters read so far, last one first. *)
Fixpoint read_string (bs : bytes) (acc : bytes) : option (string * bytes) :=
  match bs with
  | [] => None
  | x22 :: r => Some (String.string_of_list_byte (rev_append acc []), r)
  | x5c :: _ => None
  | b :: r =>
      if (b2n b <? 32)%N || (127 <? b2n b)%N then None
      else read_string r (b :: acc)
  end.

Fixpoint read_digits (bs : bytes) (acc : N) : N * bytes :=
  match bs with
  | b :: r =>
      if is_digit b then read_digits r (10 * acc + (b2n b - 48))%N
      else (acc, bs)
  | [] => (acc, bs)
  end.

(** An integer literal: no leading zeros, no fraction, no exponent. *)
Definition read_int (bs : bytes) : option (N * bytes) :=
  match bs with
  | x30 :: r =>
      match r with
      | b :: _ =>
          if is_digit b || bool_decide (b = x2e) || bool_decide (b = x65)
             || bool_decide (b = x45)
          then None else Some (0%N, r)
      | [] => Some (0%N, r)
      end
  | b :: _ =>
      if is_digit b then
        let '(n, r) := read_digits bs 0 in
        match r with
        | c :: _ =>
            if bool_decide (c = x2e) || bool_decide (c = x65)
               || bool_decide (c = x45)
            then None else Some (n, r)
        | [] => Some (n, r)
        end
      else None
  | [] => None
  end.

(** [d[k] = v] on a dict under construction: a repeated key keeps its
    place and takes the new value. *)
Fixpoint dict_set (items : list (string * pyvalue)) (k : string) (v : pyvalue)
  : list (string * pyvalue) :=
  match items with
  | [] => [(k, v)]
  | (k', v') :: r =>
      if String.eqb k' k then (k, v) :: r else (k', v') :: dict_set r k v
  end.

Fixpoint read_value (fuel : nat) (bs : bytes) : option (pyvalue * bytes) :=
  match fuel with
  | O => None
  | S fuel' =>
      match skip_ws bs with
      | x6e :: x75 :: x6c :: x6c :: r => Some (PyNone, r)
      | x74 :: x72 :: x75 :: x65 :: r => Some (PyBool true, r)
      | x66 :: x61 :: x6c :: x73 :: x65 :: r => Some (PyBool false, r)
      | x22 :: r =>
          match read_string r [] with
          | Some (s, r') => Some (PyStr s, r')
          | None => None
          end
      | x2d :: r =>
          match read_int r with
          | Some (n, r') => Some (PyInt (- Z.of_N n), r')
          | None => None
          end
      | x5b :: r =>
          match skip_ws r with
          | x5d :: r' => Some (PyList [], r')
          | _ => read_elements fuel' r []
          end
      | x7b :: r =>
          match skip_ws r with
          | x7d :: r' => Some (PyDict [], r')
          | _ => read_pairs fuel' r []
          end
      | r =>
          match read_int r with
          | Some (n, r') => Some (PyInt (Z.of_N n), r')
          | None => None
          end
      end
  end
with read_elements (fuel : nat) (bs : bytes) (acc : list pyvalue)
  : option (pyvalue * bytes) :=
  match fuel with
  | O => None
  | S fuel' =>
      match read_value fuel' bs with
      | Some (v, r) =>
          match skip_ws r with
          | x2c :: r' => read_elements fuel' r' (acc ++ [v])
          | x5d :: r' => Some (PyList (acc ++ [v]), r')
          | _ => None
          end
      | None => None
      end
  end
with read_pairs (fuel : nat) (bs : bytes) (acc : list (string * pyvalue))
  : option (pyvalue * bytes) :=
  match fuel with
  | O => None
  | S fuel' =>
      match skip_ws bs with
      | x22 :: r =>
          match read_string r [] with
          | Some (k, r1) =>
              match skip_ws r1 with
              | x3a :: r2 =>
                  match read_value fuel' r2 with
                  | Some (v, r3) =>
                      match skip_ws r3 with
                      | x2c :: r4 => read_pairs fuel' r4 (dict_set acc k v)
                      | x7d :: r4 => Some (PyDict (dict_set acc k v), r4)
                      | _ => None
                      end
                  | None => None
                  end
              | _ => None
              end
          | None => None
          end
      | _ => None
      end
  end.

(** [json.loads] on bytes: one value, white space around it allowed. *)
Definition ref_json_decode (bs : bytes) : exn + pyvalue :=
  match read_value (S (S (length bs))) bs with
  | Some (v, r) =>
      match skip_ws r with
      | [] => inr v
      | _ => inl JSONDecodeError
      end
  | None => inl JSONDecodeError
  end.

(** The runtime over a given network. *)
Definition runtime (net : string -> option bytes) : Runtime :=
  {| urlopen_body := net;
     tarfile_members := ref_tarfile_members;
     json_decode := ref_json_decode |}.

(** A network that serves [body] at [u] and nothing else. *)
Definition serving (u : string) (body : bytes) : string -> option bytes :=
  fun u' => if String.eqb u' u then Some body else None.

End RefRuntime.

Import RefRuntime.

(* ===================================================================== *)
(** * Properties                                                          *)
(* ===================================================================== *)

(** Number of [urlopen] calls, of acquisitions and of releases in a log. *)
Definition is_urlopen (e : event) : bool :=
  match e with
  | EvUrlopen _ => true
  | _ => false
  end.

Definition attempts (tr : list event) : nat :=
  length (List.filter is_urlopen tr).

Definition opened (r : resource) (tr : list event) : nat :=
  length (List.filter
            (fun e => match e with
                      | EvOpened r' => bool_decide (r' = r)
                      | _ => false
                      end) tr).

Definition closed (r : resource) (tr : list event) : nat :=
  length (List.filter
            (fun e => match e with
                      | EvClosed r' => bool_decide (r' = r)
                      | _ => false
                      end) tr).

(** The selection predicate of line 164. *)
Definition is_json (m : TarInfo) : bool := endswith (name m) ".json".

(** The events of a fetch of [u] up to the moment the archive reader is
    given [chunk], the bytes of the first read. *)
Definition download_events (u : string) (chunk : bytes) : list event :=
  [EvUrlopen (PyStr u); EvOpened NetStream; EvOpened MemBuffer;
   EvRead CHUNK (length chunk); EvClosed NetStream; EvArchiveOpen chunk].

(** What lines 162-172 do with the member table [ms] of an archive that
    could be opened: the outcome, and the events after the archive was given
    to the reader.  [fetch_nonempty] below shows that the code computes
    exactly this. *)
Definition extraction (ms : list TarInfo) : result pyvalue * list event :=
  match List.filter (fun n => endswith n ".json") (map name ms) with
  | [] => (Raise IndexError, [EvOpened ArchiveReader])
  | n :: _ =>
      match getmember {| members := ms |} n with
      | None => (Raise KeyError, [EvOpened ArchiveReader])
      | Some m =>
          match type m with
          | REGTYPE =>
              (Ok (PyBytes (data m)),
               [EvOpened ArchiveReader; EvClosed ArchiveReader;
                EvClosed MemBuffer])
          | _ => (Raise (AttributeError "read"), [EvOpened ArchiveReader])
          end
      end
  end.

(** The fetch followed by the processing step. *)
Definition fetch_then_process `{Runtime} (fuel : nat) (u : string) : M pyvalue :=
  data <- fetch_tar_file_data fuel (PyStr u) ;;
  _process_ data.

(** ** The operations of a provider instance, and the states they reach *)

Inductive operation :=
| Op_aenter
| Op_aexit
| Op_fetch
| Op_process (data : pyvalue)
| Op_fetch_tar_file_data (fuel : nat) (u : pyvalue)
| Op_await (fuel : nat) (v : pyvalue).

(** The instance after one operation, whatever its outcome. *)
Definition after `{Runtime} (o : operation) (w : World) : World :=
  match o with
  | Op_aenter => (__aenter__ w).2
  | Op_aexit => (__aexit__ w).2
  | Op_fetch => (_fetch_ w).2
  | Op_process data => (_process_ data w).2
  | Op_fetch_tar_file_data fuel u => (fetch_tar_file_data fuel u w).2
  | Op_await fuel v => (await fuel v w).2
  end.

(** The states of an instance: built by [__init__], then used through its
    methods. *)
Inductive reachable `{Runtime} : World -> Prop :=
| reachable_init e : reachable (__init__ e)
| reachable_after o w : reachable w -> reachable (after o w).

(** The instance with [_connection] set to [c]. *)
Definition with_connection (c : pyvalue) (w : World) : World :=
  {| attrs := <["_connection" := c]> (attrs w); trace := trace w |}.

(** Whether [self._event.config.connection_params] exists. *)
Definition has_connection_params (e : NginxCephFetchEvent) : bool :=
  match config e with
  | Some c => bool_decide (is_Some (cfg_inherited c !! "connection_params"))
  | None => false
  end.

(** [m] leaves the attributes of the instance as they are. *)
Definition keeps_attrs {A} (m : M A) : Prop :=
  forall w, attrs (m w).2 = attrs w.

(** ** Concrete events, archives and runtimes *)

Definition bundle_url : string := "http://nginx.ceph/bundles/data.tar.gz".

Definition event_of (u : option string) : NginxCephFetchEvent :=
  {| url := u; fetcher := "NginxCephFetchProvider"; config := None |}.

(** A config whose inherited fields include [connection_params = None]. *)
Definition config_with_params : NginxCephFetcherConfig :=
  {| cfg_fetcher := "NginxCephFetchProvider";
     cfg_inherited := {[ "connection_params" := None ]} |}.

Definition a1_json : string := dq "{'a':1}".

(** One [.json] member holding [{"a":1}]. *)
Definition a1_archive : bytes := targz [file "data.json" a1_json].

(** Members readme.txt, data.json, extra.json, in that order. *)
Definition three_members : list TarInfo :=
  [file "readme.txt" "hello"; file "data.json" a1_json;
   file "extra.json" (dq "{'b':2}")].
Definition three_archive : bytes := targz three_members.

(** No [.json] member. *)
Definition readme_archive : bytes := targz [file "readme.txt" "hello"].

(** The name data.json stored twice, with different contents. *)
Definition twice_members : list TarInfo :=
  [file "data.json" a1_json; file "data.json" (dq "{'a':2}")].
Definition twice_archive : bytes := targz twice_members.

Fixpoint string_repeat (n : nat) (c : Ascii.ascii) : string :=
  match n with
  | O => EmptyString
  | S n' => String c (string_repeat n' c)
  end.

(** A JSON string of 20000 letters: a member larger than one read. *)
Definition long_text : string := string_repeat 20000 (Ascii.ascii_of_nat 97).
Definition long_json : string := dq "'" +:+ long_text +:+ dq "'".
Definition long_archive : bytes := targz [file "data.json" long_json].

(** The runtime in which [bundle_url] serves [body]. *)
Definition serving_bundle (body : bytes) : Runtime :=
  runtime (serving bundle_url body).

(** The runtime in which no URL can be opened. *)
Definition unreachable_net : Runtime := runtime (fun _ => None).

(** ** test.py *)

(** The script test.py runs the statements of [fetch_tar_file_data] at
    module level (lines 32-71), for the URL of line 6.  Its download loop
    holds the read and the write only; the stream is closed and the archive
    is handled after the loop. *)
Definition test_url : string :=
  "http://hk-qaopabs-2011/bundles/data/contactsapi.51.tar.gz".

(** [while True: body] for a body without [return]: [inl s] when the body
    ran to its end, [inr s] on [break]; the result is the state at the
    break. *)
Fixpoint while_break {S} (fuel : nat) (body : S -> M (S + S)) (s : S) : M S :=
  match fuel with
  | O => out_of_fuel
  | Datatypes.S fuel' =>
      c <- body s ;;
      match c with
      | inl s' => while_break fuel' body s'
      | inr s' => ret s'
      end
  end.

(** One pass through the loop of test.py (lines 36-46). *)
Definition download_loop_body (st : HTTPResponse * BytesIO)
  : M (HTTPResponse * BytesIO + HTTPResponse * BytesIO) :=
  let ftpstream := st.1 in
  let tmpfile := st.2 in
  rd <- stream_read ftpstream CHUNK ;;
  let s := rd.1 in
  let ftpstream := rd.2 in
  if bool_decide (s = []) then ret (inr (ftpstream, tmpfile))
  else
    tmpfile <- BytesIO_write tmpfile s ;;
    ret (inl (ftpstream, tmpfile)).

(** test.py, lines 32-71, for the URL [u].  [print(jsonData)] is the only
    output of the script: the printed value is the result here. *)
Definition test_main `{Runtime} (fuel : nat) (u : string) : M pyvalue :=
  ftpstream <- urlopen (PyStr u) ;;
  tmpfile <- BytesIO_new ;;
  st <- while_break fuel download_loop_body (ftpstream, tmpfile) ;;
  let ftpstream := st.1 in
  let tmpfile := st.2 in
  ftpstream <- stream_close ftpstream ;;
  tmpfile <- BytesIO_seek tmpfile 0 ;;
  tfile <- tarfile_open tmpfile ;;
  let tfile_data :=
    List.filter (fun filename => endswith filename ".json")
                (getnames tfile) in
  first <- list_index tfile_data 0 ;;
  tfile_extract1 <- extractfile tfile first ;;
  tfile_extract1_text <- extracted_read tfile_extract1 ;;
  jsonData <- json_loads (PyBytes tfile_extract1_text) ;;
  TarFile_close tfile ;;;
  BytesIO_close tmpfile ;;;
  ret jsonData.

(** The script as it stands. *)
Definition test_script `{Runtime} (fuel : nat) : M pyvalue :=
  test_main fuel test_url.

(** Number of reads in a log, and number of bytes they returned. *)
Definition reads (tr : list event) : nat :=
  length (List.filter (fun e => match e with
                                | EvRead _ _ => true
                                | _ => false
                                end) tr).

Definition bytes_read (tr : list event) : nat :=
  fold_right (fun e n => match e with
                         | EvRead _ got => got + n
                         | _ => n
                         end) 0 tr.

(** A directory whose name ends in [.json]. *)
Definition json_directory : TarInfo :=
  {| name := "conf.json"; type := DIRTYPE; data := [] |}.
Definition directory_archive : bytes :=
  targz [json_directory; file "data.json" a1_json].


(** ** Auxiliary facts *)

Lemma CHUNK_pos : 0 < CHUNK.
Proof. unfold CHUNK. lia. Qed.

Lemma take_CHUNK_nonempty (body : bytes) : body ≠ [] → take CHUNK body ≠ [].
Proof.
  destruct body as [|b body]; [done|].
  intros _. pose proof CHUNK_pos. destruct CHUNK; [lia|]. done.
Qed.

#[local] Opaque CHUNK.

Lemma logged_logged w evs1 evs2 :
  logged (logged w evs1) evs2 = logged w (evs1 ++ evs2).
Proof. unfold logged. cbn. by rewrite app_assoc. Qed.

(** ** Evaluation rules of the monad *)

Lemma bind_ret {A B} (a : A) (k : A → M B) w : bind (ret a) k w = k a w.
Proof. reflexivity. Qed.

Lemma bind_raise {A B} e (k : A → M B) w :
  bind (raise e) k w = (Raise e, w).
Proof. reflexivity. Qed.

Lemma bind_emit {B} e (k : unit → M B) w :
  bind (emit e) k w = k tt (logged w [e]).
Proof. reflexivity. Qed.

Lemma bind_assoc {A B C} (m : M A) (k : A → M B) (k' : B → M C) w :
  bind (bind m k) k' w = bind m (fun a => bind (k a) k') w.
Proof. unfold bind. destruct (m w) as [[a| |] w']; reflexivity. Qed.

(** One step of symbolic execution. *)
Ltac mstep :=
  first
    [ rewrite bind_ret | rewrite bind_raise | rewrite bind_emit
    | rewrite bind_assoc | rewrite logged_logged
    | progress cbn [buf_closed pos buf resp_closed unread members fst snd
                    of_sum app drop] ].
Ltac mrun := repeat mstep.

Section Fetch.
Context `{Runtime}.

(** The first pass through the loop on a response without data. *)
Lemma loop_body_empty tmpfile w :
  fetch_loop_body ({| unread := []; resp_closed := false |}, tmpfile) w
  = (Ok Break, logged w [EvRead CHUNK 0]).
Proof.
  unfold fetch_loop_body, stream_read. cbn [fst snd resp_closed unread].
  rewrite bind_assoc, bind_emit, bind_ret. cbn [fst snd].
  rewrite take_nil. reflexivity.
Qed.

(** The first pass through the loop on a response with data. *)
Lemma loop_body_nonempty body w :
  body ≠ [] →
  fetch_loop_body ({| unread := body; resp_closed := false |},
                   {| buf := []; pos := 0; buf_closed := false |}) w
  = let chunk := take CHUNK body in
    let w1 := logged w [EvRead CHUNK (length chunk); EvClosed NetStream;
                        EvArchiveOpen chunk] in
    match tarfile_members chunk with
    | inl e => (Raise e, w1)
    | inr ms => ((match (extraction ms).1 with
                  | Ok v => Ok (Return v)
                  | Raise e => Raise e
                  | OutOfFuel => OutOfFuel
                  end), logged w1 (extraction ms).2)
    end.
Proof.
  intros Hne. apply take_CHUNK_nonempty in Hne.
  unfold fetch_loop_body, stream_read. cbn [fst snd resp_closed unread].
  rewrite bind_assoc, bind_emit, bind_ret. cbn [fst snd].
  rewrite bool_decide_eq_false_2 by done.
  generalize (drop CHUNK body). generalize (take CHUNK body).
  clear. intros chunk rest.
  unfold BytesIO_write, stream_close, BytesIO_seek, tarfile_open.
  cbn [buf_closed pos buf take replicate Nat.sub length Nat.add app].
  rewrite drop_nil, app_nil_r. mrun. rewrite !drop_0.
  destruct (tarfile_members chunk) as [e|ms]; mrun; [done|].
  unfold extraction, getnames, list_index, extractfile. cbn [members].
  destruct (List.filter _ (map name ms)) as [|n names]; cbn [lookup].
  - by mrun.
  - cbn [list_lookup]. mrun.
    destruct (getmember {| members := ms |} n) as [m|]; mrun; [|done].
    unfold extracted_read, TarFile_close, BytesIO_close.
    destruct (type m); by mrun.
Qed.

(** A fetch of a reachable URL comes to the loop with the response and an
    empty buffer. *)
Lemma fetch_reaches_loop fuel u body w :
  urlopen_body u = Some body →
  fetch_tar_file_data fuel (PyStr u) w
  = bind (while_true fuel fetch_loop_body
            ({| unread := body; resp_closed := false |},
             {| buf := []; pos := 0; buf_closed := false |}))
         (fun r => match r with
                   | Some v => ret v
                   | None => ret PyNone
                   end)
         (logged w [EvUrlopen (PyStr u); EvOpened NetStream;
                    EvOpened MemBuffer]).
Proof.
  intros Hnet. unfold fetch_tar_file_data, urlopen, BytesIO_new.
  rewrite Hnet. by mrun.
Qed.

Lemma fetch_unreachable fuel u w :
  urlopen_body u = None →
  fetch_tar_file_data fuel (PyStr u) w
  = (Raise URLError, logged w [EvUrlopen (PyStr u)]).
Proof.
  intros Hnet. unfold fetch_tar_file_data, urlopen.
  rewrite Hnet. by mrun.
Qed.

Lemma fetch_not_a_string fuel v w :
  (∀ s, v ≠ PyStr s) →
  fetch_tar_file_data fuel v w
  = (Raise (AttributeError "timeout"), logged w [EvUrlopen v]).
Proof.
  intros Hv. unfold fetch_tar_file_data, urlopen.
  destruct v; try (by mrun).
  by destruct (Hv s).
Qed.

Lemma fetch_empty fuel u w :
  urlopen_body u = Some [] →
  fetch_tar_file_data (S fuel) (PyStr u) w
  = (Ok PyNone,
     logged w [EvUrlopen (PyStr u); EvOpened NetStream; EvOpened MemBuffer;
               EvRead CHUNK 0]).
Proof.
  intros Hnet. rewrite (fetch_reaches_loop _ _ _ _ Hnet).
  cbn [while_true]. rewrite bind_assoc. unfold bind at 1.
  rewrite loop_body_empty. by mrun.
Qed.

(** The fetch of a response with data, for every positive fuel: one pass
    through the loop, which gives the first [CHUNK] bytes to the archive
    reader. *)
Lemma fetch_nonempty fuel u body w :
  urlopen_body u = Some body →
  body ≠ [] →
  fetch_tar_file_data (S fuel) (PyStr u) w
  = let chunk := take CHUNK body in
    match tarfile_members chunk with
    | inl e => (Raise e, logged w (download_events u chunk))
    | inr ms =>
        ((extraction ms).1,
         logged w (download_events u chunk ++ (extraction ms).2))
    end.
Proof.
  intros Hnet Hne. rewrite (fetch_reaches_loop _ _ _ _ Hnet).
  cbn [while_true]. rewrite bind_assoc. unfold bind at 1.
  rewrite (loop_body_nonempty _ _ Hne). cbn zeta. unfold download_events.
  destruct (tarfile_members (take CHUNK body)) as [e|ms]; [by mrun|].
  destruct (extraction ms) as [[v|e|] evs]; by mrun.
Qed.

End Fetch.

(** ** Methods that keep the attributes *)

Lemma keeps_ret {A} (a : A) : keeps_attrs (ret a).
Proof. by intros w. Qed.

Lemma keeps_raise {A} e : keeps_attrs (@raise A e).
Proof. by intros w. Qed.

Lemma keeps_out_of_fuel {A} : keeps_attrs (@out_of_fuel A).
Proof. by intros w. Qed.

Lemma keeps_emit e : keeps_attrs (emit e).
Proof. by intros w. Qed.

Lemma keeps_getattr n : keeps_attrs (getattr_self n).
Proof. intros w. unfold getattr_self. by destruct (attrs w !! n). Qed.

Lemma keeps_bind {A B} (m : M A) (k : A → M B) :
  keeps_attrs m → (∀ a, keeps_attrs (k a)) → keeps_attrs (bind m k).
Proof.
  intros Hm Hk w. unfold bind. specialize (Hm w).
  destruct (m w) as [[a| |] w']; cbn in *; [|done..].
  by rewrite Hk.
Qed.

Lemma keeps_while {S R} (body : S → M (ctl S R)) fuel s :
  (∀ s, keeps_attrs (body s)) → keeps_attrs (while_true fuel body s).
Proof.
  intros Hbody. revert s. induction fuel as [|fuel IH]; intros s.
  - apply keeps_out_of_fuel.
  - cbn [while_true]. apply keeps_bind; [done|].
    intros [s'| |r]; [apply IH|apply keeps_ret..].
Qed.

Create HintDb keeps.
#[local] Hint Resolve keeps_ret keeps_raise keeps_out_of_fuel keeps_emit
  keeps_getattr : keeps.

(** Splits a method into its statements. *)
Ltac keeps :=
  repeat first
    [ apply keeps_bind; [|intros ?]
    | solve [auto with keeps]
    | match goal with
      | |- keeps_attrs (match ?x with _ => _ end) => destruct x
      | |- keeps_attrs (if ?b then _ else _) => destruct b
      end ].

Section Keeps.
Context `{Runtime}.

Lemma keeps_fetch_tar_file_data fuel u :
  keeps_attrs (fetch_tar_file_data fuel u).
Proof.
  unfold fetch_tar_file_data, urlopen, BytesIO_new. keeps.
  apply keeps_while. intros [r f].
  unfold fetch_loop_body, stream_read, BytesIO_write, stream_close,
    BytesIO_seek, tarfile_open, list_index, extractfile, extracted_read,
    TarFile_close, BytesIO_close, of_sum.
  keeps.
Qed.

Lemma keeps_await fuel v : keeps_attrs (await fuel v).
Proof.
  destruct v; cbn [await]; auto with keeps.
  apply keeps_fetch_tar_file_data.
Qed.

Lemma keeps_process v : keeps_attrs (_process_ v).
Proof. unfold _process_, json_loads, of_sum. keeps. Qed.

End Keeps.

Lemma keeps_self_event : keeps_attrs self_event.
Proof. unfold self_event. keeps. Qed.

Lemma keeps_fetch : keeps_attrs _fetch_.
Proof. unfold _fetch_. pose proof keeps_self_event. keeps. Qed.

Lemma keeps_aexit : keeps_attrs __aexit__.
Proof. unfold __aexit__. keeps. Qed.

(** ** Attribute reads *)

Lemma bind_getattr {B} n v (k : pyvalue → M B) w :
  attrs w !! n = Some v → bind (getattr_self n) k w = k v w.
Proof. intros Hn. unfold bind, getattr_self. by rewrite Hn. Qed.

Lemma bind_getattr_unset {B} n (k : pyvalue → M B) w :
  attrs w !! n = None →
  bind (getattr_self n) k w = (Raise (AttributeError n), w).
Proof. intros Hn. unfold bind, getattr_self. by rewrite Hn. Qed.

Lemma bind_self_event {B} e (k : NginxCephFetchEvent → M B) w :
  attrs w !! "_event" = Some (PyEvent e) → bind self_event k w = k e w.
Proof.
  intros He. unfold self_event. rewrite bind_assoc.
  by rewrite (bind_getattr _ _ _ _ He), bind_ret.
Qed.

Lemma fetch_without_url w e :
  attrs w !! "_event" = Some (PyEvent e) →
  url e = None →
  _fetch_ w
  = (Ok PyNone,
     logged w [EvWarning "incomplete fetcher config: fetcher require a url to specify from where data to fetch!"]).
Proof.
  intros He Hu. unfold _fetch_. rewrite (bind_self_event _ _ _ He), Hu.
  by mrun.
Qed.

Lemma fetch_with_url w e u v :
  attrs w !! "_event" = Some (PyEvent e) →
  url e = Some u →
  attrs w !! "_url" = Some v →
  _fetch_ w
  = (Ok (PyCoroutine v),
     logged w [EvDebug "NginxCephFetchProvider fetching from " v]).
Proof.
  intros He Hu Hv. unfold _fetch_. rewrite (bind_self_event _ _ _ He), Hu.
  rewrite (bind_getattr _ _ _ _ Hv). mrun.
  by rewrite (bind_getattr "_url" v).
Qed.

Lemma aenter_fails w e :
  attrs w !! "_event" = Some (PyEvent e) →
  attrs w !! "_connection" = None →
  __aenter__ w
  = (Raise (AttributeError (if has_connection_params e then "_connection"
                            else "connection_params")), w).
Proof.
  intros He Hc. unfold __aenter__. rewrite (bind_self_event _ _ _ He).
  unfold event_connection_params, has_connection_params.
  destruct (config e) as [c|]; [|by mrun].
  destruct (cfg_inherited c !! "connection_params") as [p|] eqn:Hp.
  - rewrite bool_decide_eq_true_2 by eauto. mrun.
    by rewrite bind_getattr_unset.
  - rewrite bool_decide_eq_false_2 by (by intros [? ?]). by mrun.
Qed.

Lemma aexit_fails w :
  attrs w !! "_transaction" = None →
  __aexit__ w = (Raise (AttributeError "_transaction"), w).
Proof.
  intros Ht. unfold __aexit__. by rewrite bind_getattr_unset.
Qed.

Lemma init_attrs e :
  attrs (__init__ e) !! "_event" = Some (PyEvent (parse_event e))
  ∧ attrs (__init__ e) !! "_url" = Some (py_of_url (url e))
  ∧ attrs (__init__ e) !! "_connection" = None
  ∧ attrs (__init__ e) !! "_transaction" = None.
Proof. unfold __init__. cbn [attrs]. by simplify_map_eq. Qed.

(** The lifecycle attributes stay unassigned in every reachable state. *)
Lemma reachable_invariant `{Runtime} w :
  reachable w →
  (∃ e, attrs w !! "_event" = Some (PyEvent e))
  ∧ attrs w !! "_connection" = None
  ∧ attrs w !! "_transaction" = None.
Proof.
  induction 1 as [e|o w Hw (He & Hc & Ht)].
  - destruct (init_attrs e) as (? & _ & ? & ?). eauto.
  - assert (attrs (after o w) = attrs w) as ->; [|done].
    destruct o; cbn [after].
    + destruct He as [e He]. by rewrite (aenter_fails _ _ He Hc).
    + apply keeps_aexit.
    + apply keeps_fetch.
    + apply keeps_process.
    + apply keeps_fetch_tar_file_data.
    + apply keeps_await.
Qed.

(** The fetch path does not depend on [_connection]. *)
Lemma fetch_ignores_connection c w :
  (_fetch_ (with_connection c w)).1 = (_fetch_ w).1
  ∧ trace (_fetch_ (with_connection c w)).2 = trace (_fetch_ w).2.
Proof.
  assert (∀ n, n ≠ "_connection" →
               attrs (with_connection c w) !! n = attrs w !! n) as Hn.
  { intros n Hne. unfold with_connection. cbn [attrs].
    by rewrite lookup_insert_ne. }
  unfold _fetch_, self_event, bind, getattr_self.
  rewrite !Hn by done.
  destruct (attrs w !! "_event") as [[]|]; try done.
  cbn. destruct (url e); [|done].
  rewrite !Hn by done.
  destruct (attrs w !! "_url") as [v|] eqn:Hu; [|done].
  cbn. by rewrite !Hn, !Hu by done.
Qed.

(** ** Counting events *)

Lemma attempts_app tr1 tr2 : attempts (tr1 ++ tr2) = attempts tr1 + attempts tr2.
Proof. unfold attempts. by rewrite List.filter_app, length_app. Qed.

Lemma opened_app r tr1 tr2 : opened r (tr1 ++ tr2) = opened r tr1 + opened r tr2.
Proof. unfold opened. by rewrite List.filter_app, length_app. Qed.

Lemma closed_app r tr1 tr2 : closed r (tr1 ++ tr2) = closed r tr1 + closed r tr2.
Proof. unfold closed. by rewrite List.filter_app, length_app. Qed.

(** ** Member selection *)

Lemma find_first_match {A} (f : A → bool) l x r :
  Forall (fun y => f y = false) l → f x = true →
  List.find f (l ++ x :: r) = Some x.
Proof.
  intros Hl Hx. induction Hl as [|y l Hy _ IH]; cbn.
  - by rewrite Hx.
  - by rewrite Hy.
Qed.

Lemma json_names_none ms :
  Forall (fun m => is_json m = false) ms →
  List.filter (fun n => endswith n ".json") (map name ms) = [].
Proof.
  induction 1 as [|m ms Hm _ IH]; [done|].
  cbn. unfold is_json in Hm. by rewrite Hm.
Qed.

Lemma json_names_first pre m post :
  Forall (fun x => is_json x = false) pre → is_json m = true →
  List.filter (fun n => endswith n ".json") (map name (pre ++ m :: post))
  = name m :: List.filter (fun n => endswith n ".json") (map name post).
Proof.
  intros Hpre Hm. rewrite map_app, List.filter_app, (json_names_none _ Hpre).
  cbn. unfold is_json in Hm. by rewrite Hm.
Qed.

(** A name denotes the last member that bears it. *)
Lemma getmember_last pre m post :
  Forall (fun x => name x ≠ name m) post →
  getmember {| members := pre ++ m :: post |} (name m) = Some m.
Proof.
  intros Hpost. unfold getmember. cbn [members].
  rewrite rev_app_distr. cbn [rev]. rewrite <- app_assoc. cbn [app].
  apply find_first_match; [|apply String.eqb_refl].
  apply Forall_forall. intros x Hx.
  apply String.eqb_neq. rewrite Forall_forall in Hpost. apply Hpost.
  apply list_elem_of_In. apply in_rev. by apply list_elem_of_In.
Qed.

Lemma extraction_no_json ms :
  Forall (fun m => is_json m = false) ms →
  extraction ms = (Raise IndexError, [EvOpened ArchiveReader]).
Proof. intros Hms. unfold extraction. by rewrite json_names_none. Qed.

Lemma extraction_first_json pre m post :
  Forall (fun x => is_json x = false) pre → is_json m = true →
  Forall (fun x => name x ≠ name m) post →
  type m = REGTYPE →
  extraction (pre ++ m :: post)
  = (Ok (PyBytes (data m)),
     [EvOpened ArchiveReader; EvClosed ArchiveReader; EvClosed MemBuffer]).
Proof.
  intros Hpre Hm Hpost Hty. unfold extraction.
  rewrite (json_names_first _ _ _ Hpre Hm), (getmember_last _ _ _ Hpost).
  by rewrite Hty.
Qed.

(** The two shapes of what follows a successful open. *)
Lemma extraction_cases ms :
  (∃ e, extraction ms = (Raise e, [EvOpened ArchiveReader]))
  ∨ (∃ b, extraction ms
          = (Ok (PyBytes b),
             [EvOpened ArchiveReader; EvClosed ArchiveReader;
              EvClosed MemBuffer])).
Proof.
  unfold extraction.
  destruct (List.filter _ _) as [|n ?]; [eauto|].
  destruct (getmember _ n) as [m|]; [|eauto].
  destruct (type m); eauto.
Qed.

Section Outcomes.
Context `{Runtime}.

(** Every way a fetch of a string URL can end, for positive fuel. *)
Lemma fetch_cases fuel u w :
  (urlopen_body u = None
   ∧ fetch_tar_file_data (S fuel) (PyStr u) w
     = (Raise URLError, logged w [EvUrlopen (PyStr u)]))
  ∨ (urlopen_body u = Some []
     ∧ fetch_tar_file_data (S fuel) (PyStr u) w
       = (Ok PyNone,
          logged w [EvUrlopen (PyStr u); EvOpened NetStream;
                    EvOpened MemBuffer; EvRead CHUNK 0]))
  ∨ (∃ body e evs,
       urlopen_body u = Some body
       ∧ (evs = [] ∨ evs = [EvOpened ArchiveReader])
       ∧ fetch_tar_file_data (S fuel) (PyStr u) w
         = (Raise e, logged w (download_events u (take CHUNK body) ++ evs)))
  ∨ (∃ body b,
       urlopen_body u = Some body
       ∧ fetch_tar_file_data (S fuel) (PyStr u) w
         = (Ok (PyBytes b),
            logged w (download_events u (take CHUNK body)
                      ++ [EvOpened ArchiveReader; EvClosed ArchiveReader;
                          EvClosed MemBuffer]))).
Proof.
  destruct (urlopen_body u) as [body|] eqn:Hnet.
  - destruct body as [|b0 body].
    + right; left. split; [done|]. by apply fetch_empty.
    + right; right.
      rewrite (fetch_nonempty _ _ _ _ Hnet) by done. cbn zeta.
      destruct (tarfile_members (take CHUNK (b0 :: body))) as [e|ms].
      * left. exists (b0 :: body), e, []. rewrite app_nil_r. eauto.
      * destruct (extraction_cases ms) as [[e ->]|[b ->]]; cbn [fst snd].
        -- left. exists (b0 :: body), e, [EvOpened ArchiveReader]. eauto.
        -- right. eauto.
  - left. split; [done|]. by apply fetch_unreachable.
Qed.

(** One call of [urlopen] per fetch, whatever the argument, the fuel and
    the outcome. *)
Lemma fetch_attempts fuel v w :
  attempts (trace (fetch_tar_file_data fuel v w).2)
  = S (attempts (trace w)).
Proof.
  assert (∀ evs, attempts evs = 1 →
            attempts (trace (logged w evs)) = S (attempts (trace w))) as Hlog.
  { intros evs Hevs. unfold logged. cbn [trace].
    rewrite attempts_app, Hevs. lia. }
  assert ((∃ s, v = PyStr s) ∨ (∀ s, v ≠ PyStr s)) as [[u ->]|Hv]
    by (destruct v; eauto).
  - destruct fuel as [|fuel].
    + destruct (urlopen_body u) as [body|] eqn:Hnet.
      * rewrite (fetch_reaches_loop _ _ _ _ Hnet). cbn [while_true].
        by apply Hlog.
      * rewrite (fetch_unreachable _ _ _ Hnet). by apply Hlog.
    + destruct (fetch_cases fuel u w)
        as [[_ ->]|[[_ ->]|[(body & e & evs & _ & Hevs & ->)
                           |(body & b & _ & ->)]]];
        apply Hlog; try done.
      * by destruct Hevs as [-> | ->].
  - rewrite fetch_not_a_string; [by apply Hlog|done].
Qed.

End Outcomes.

(* ===================================================================== *)
(** * The claims                                                          *)
(* ===================================================================== *)

Section Claims.
Context `{Runtime}.

(** Round trip for an archive that arrives in one read: a single regular
    [.json] member whose content decodes to [v] is fetched and parsed to
    [v]. *)
Lemma roundtrip_first_chunk fuel u body m v w :
  urlopen_body u = Some body →
  body ≠ [] →
  (length body ≤ CHUNK)%nat →
  tarfile_members body = inr [m] →
  is_json m = true →
  type m = REGTYPE →
  json_decode (data m) = inr v →
  fetch_then_process (S fuel) u w
  = (Ok v,
     logged w (download_events u body
               ++ [EvOpened ArchiveReader; EvClosed ArchiveReader;
                   EvClosed MemBuffer])).
Proof.
  intros Hnet Hne Hlen Hms Hjson Hty Hv. unfold fetch_then_process, bind.
  rewrite (fetch_nonempty _ _ _ _ Hnet Hne). cbn zeta.
  rewrite (take_ge body CHUNK) by done. rewrite Hms.
  pose proof (extraction_first_json [] m [] (Forall_nil_2 _) Hjson
                (Forall_nil_2 _) Hty) as Hx.
  cbn [app] in Hx. rewrite Hx. cbn [fst snd].
  unfold _process_, json_loads. by rewrite Hv.
Qed.

(** C2: for a URL that is not None, [_fetch_] calls [fetch_tar_file_data]
    without awaiting it: it returns the coroutine object, having opened
    nothing, and [_process_] on that result raises a TypeError. *)
Theorem C2_fetch_returns_unawaited_coroutine w e u v :
  attrs w !! "_event" = Some (PyEvent e) →
  url e = Some u →
  attrs w !! "_url" = Some v →
  _fetch_ w
  = (Ok (PyCoroutine v),
     logged w [EvDebug "NginxCephFetchProvider fetching from " v])
  ∧ (data <- _fetch_ ;; _process_ data) w
    = (Raise TypeError,
       logged w [EvDebug "NginxCephFetchProvider fetching from " v]).
Proof.
  intros He Hu Hv. pose proof (fetch_with_url _ _ _ _ He Hu Hv) as Hf.
  split; [done|]. unfold bind. by rewrite Hf.
Qed.

(** C3 (amended): when the archive, delivered by the first read, has no
    member whose name ends in [.json], the fetch fails with the IndexError
    of [tfile_data[0]], leaving the buffer and the archive reader open. *)
Theorem C3_no_json_member_raises_IndexError fuel u body ms w :
  urlopen_body u = Some body →
  body ≠ [] →
  (length body ≤ CHUNK)%nat →
  tarfile_members body = inr ms →
  Forall (fun m => is_json m = false) ms →
  fetch_tar_file_data (S fuel) (PyStr u) w
  = (Raise IndexError,
     logged w (download_events u body ++ [EvOpened ArchiveReader])).
Proof.
  intros Hnet Hne Hlen Hms Hnone.
  rewrite (fetch_nonempty _ _ _ _ Hnet Hne). cbn zeta.
  rewrite (take_ge body CHUNK) by done.
  by rewrite Hms, (extraction_no_json _ Hnone).
Qed.

(** C4 (amended): for an archive delivered by the first read, the fetch
    takes the first name ending in [.json] in stored order and returns the
    content of the regular member stored under it; when no later member
    repeats that name, this is the first [.json] member. *)
Theorem C4_first_json_member_selected fuel u body pre m post w :
  urlopen_body u = Some body →
  body ≠ [] →
  (length body ≤ CHUNK)%nat →
  tarfile_members body = inr (pre ++ m :: post) →
  Forall (fun x => is_json x = false) pre →
  is_json m = true →
  Forall (fun x => name x ≠ name m) post →
  type m = REGTYPE →
  fetch_tar_file_data (S fuel) (PyStr u) w
  = (Ok (PyBytes (data m)),
     logged w (download_events u body
               ++ [EvOpened ArchiveReader; EvClosed ArchiveReader;
                   EvClosed MemBuffer])).
Proof.
  intros Hnet Hne Hlen Hms Hpre Hm Hpost Hty.
  rewrite (fetch_nonempty _ _ _ _ Hnet Hne). cbn zeta.
  rewrite (take_ge body CHUNK) by done.
  by rewrite Hms, (extraction_first_json _ _ _ Hpre Hm Hpost Hty).
Qed.

(** C5 (evaluation of the defect): for a body longer than one read the
    archive reader is given the first 16384 bytes only, while the rest of
    the body is still unread, and no further read follows. *)
Theorem C5_archive_opened_on_first_chunk fuel u body w :
  urlopen_body u = Some body →
  (CHUNK < length body)%nat →
  ∃ r evs,
    fetch_tar_file_data (S fuel) (PyStr u) w
    = (r, logged w (download_events u (take CHUNK body) ++ evs))
    ∧ take CHUNK body ≠ body
    ∧ drop CHUNK body ≠ []
    ∧ Forall (fun e => ∀ a g, e ≠ EvRead a g) evs.
Proof.
  intros Hnet Hlen.
  assert (body ≠ []) as Hne by (intros ->; cbn in Hlen; lia).
  assert (take CHUNK body ≠ body) as Htake.
  { intros Heq. apply (f_equal length) in Heq.
    rewrite length_take in Heq. lia. }
  assert (drop CHUNK body ≠ []) as Hdrop.
  { intros Heq. apply (f_equal length) in Heq.
    rewrite length_drop in Heq. cbn in Heq. lia. }
  rewrite (fetch_nonempty _ _ _ _ Hnet Hne). cbn zeta.
  destruct (tarfile_members (take CHUNK body)) as [e|ms].
  - exists (Raise e), []. rewrite app_nil_r. by repeat split.
  - exists (extraction ms).1, (extraction ms).2. repeat split; try done.
    destruct (extraction_cases ms) as [[e ->]|[b ->]]; cbn [snd];
      by repeat constructor.
Qed.

(** C6 (amended): when the fetch returns the bytes of a member, and when
    the open of the URL fails, every resource the call acquired has been
    released exactly once; the processing step acquires nothing. *)
Theorem C6_resources_released_on_success fuel u w :
  (∃ b, (fetch_tar_file_data (S fuel) (PyStr u) w).1 = Ok (PyBytes b))
  ∨ urlopen_body u = None →
  (∃ evs,
     trace (fetch_tar_file_data (S fuel) (PyStr u) w).2 = trace w ++ evs
     ∧ ∀ r, opened r evs = closed r evs ∧ (closed r evs ≤ 1)%nat)
  ∧ ∀ data w', trace (_process_ data w').2 = trace w'.
Proof.
  intros Hcase. split.
  - destruct (fetch_cases fuel u w)
      as [[Hnet Hf]|[[Hnet Hf]|[(body & e & evs & Hnet & _ & Hf)
                               |(body & b & Hnet & Hf)]]];
      rewrite Hf in *; cbn [fst snd] in *.
    + exists [EvUrlopen (PyStr u)]. split; [done|]. intros []; cbn; lia.
    + destruct Hcase as [[b ?]|?]; congruence.
    + destruct Hcase as [[b ?]|?]; congruence.
    + eexists. split; [reflexivity|].
      intros []; unfold download_events; vm_compute; lia.
  - intros data w'. unfold _process_, json_loads, of_sum.
    destruct data; try done; by destruct (json_decode _).
Qed.

(** C8: for a URL that cannot be opened the fetch raises the URLError of
    [urlopen] after one call of it; and every fetch, whatever its argument
    and outcome, calls [urlopen] exactly once, not up to the ten attempts
    of RETRY_CONFIG. *)
Theorem C8_single_attempt_no_retry fuel u w :
  urlopen_body u = None →
  fetch_tar_file_data fuel (PyStr u) w
  = (Raise URLError, logged w [EvUrlopen (PyStr u)])
  ∧ (∀ fuel' v w',
       attempts (trace (fetch_tar_file_data fuel' v w').2)
       = S (attempts (trace w')))
  ∧ (1 < rc_stop_after_attempt RETRY_CONFIG)%nat.
Proof.
  intros Hnet. split; [by apply fetch_unreachable|].
  split; [apply fetch_attempts|]. cbn. lia.
Qed.

(** C9 (amended): no operation assigns [_connection], and the fetch path
    does not read it; so in every reachable state [__aenter__] fails with
    an AttributeError, on [_connection] when the event's config has a
    [connection_params] attribute and on [connection_params] already when
    it has not, and [__aexit__] fails with an AttributeError on the
    unassigned [_transaction]. *)
Theorem C9_lifecycle_hooks_fail w :
  reachable w →
  attrs w !! "_connection" = None
  ∧ (∃ e, attrs w !! "_event" = Some (PyEvent e)
          ∧ (__aenter__ w).1
            = Raise (AttributeError
                       (if has_connection_params e then "_connection"
                        else "connection_params")))
  ∧ (__aexit__ w).1 = Raise (AttributeError "_transaction")
  ∧ (∀ c, (_fetch_ (with_connection c w)).1 = (_fetch_ w).1
          ∧ trace (_fetch_ (with_connection c w)).2 = trace (_fetch_ w).2)
  ∧ (∀ c data, (_process_ data (with_connection c w)).1
               = (_process_ data w).1).
Proof.
  intros Hw. destruct (reachable_invariant w Hw) as ([e He] & Hc & Ht).
  split; [done|]. split.
  { exists e. split; [done|]. by rewrite (aenter_fails _ _ He Hc). }
  split; [by rewrite (aexit_fails _ Ht)|].
  split; [intros c; apply fetch_ignores_connection|].
  intros c data. unfold _process_, json_loads, of_sum.
  destruct data; try done; by destruct (json_decode _).
Qed.

(** C10: when the response body has no bytes, the first read returns
    [b''], the loop is left by [break] before any archive operation, and
    the fetch returns None without raising. *)
Theorem C10_empty_body_returns_None fuel u w :
  urlopen_body u = Some [] →
  fetch_tar_file_data (S fuel) (PyStr u) w
  = (Ok PyNone,
     logged w [EvUrlopen (PyStr u); EvOpened NetStream; EvOpened MemBuffer;
               EvRead CHUNK 0]).
Proof. apply fetch_empty. Qed.

End Claims.

(** C7 (amended): when the event's URL is None, [_fetch_] logs the warning
    and returns None, opening nothing and raising nothing. *)
Theorem C7_missing_url_is_skipped w e :
  attrs w !! "_event" = Some (PyEvent e) →
  url e = None →
  _fetch_ w
  = (Ok PyNone,
     logged w [EvWarning "incomplete fetcher config: fetcher require a url to specify from where data to fetch!"]).
Proof. apply fetch_without_url. Qed.

(* ===================================================================== *)
(** * The claims on concrete archives                                     *)
(* ===================================================================== *)

(** Decides a closed fact by evaluation. *)
Ltac evaluate :=
  first
    [ vm_compute; reflexivity
    | apply Nat.leb_le; vm_compute; reflexivity
    | apply Nat.ltb_lt; vm_compute; reflexivity
    | let E := fresh in
      intros E; apply (f_equal length) in E; vm_compute in E; discriminate
    | repeat constructor; vm_compute; congruence ].


(** The archive with the single member [{"a":1}] is fetched and parsed to
    the dict [{"a": 1}]. *)
Example roundtrip_a1 :
  fetch_then_process (H := serving_bundle a1_archive) 1 bundle_url
    (__init__ (event_of (Some bundle_url)))
  = (Ok (PyDict [("a", PyInt 1)]),
     logged (__init__ (event_of (Some bundle_url)))
       (download_events bundle_url a1_archive
        ++ [EvOpened ArchiveReader; EvClosed ArchiveReader;
            EvClosed MemBuffer])).
Proof.
  apply (roundtrip_first_chunk (H := serving_bundle a1_archive) 0 bundle_url
           a1_archive (file "data.json" a1_json)); evaluate.
Qed.

(** C1 (evaluation of the defect): [long_archive] is a well-formed archive
    whose only member, data.json, holds the JSON text of a string of 20000
    letters; it is longer than one read, and fetching it and processing the
    result raises EOFError instead of returning that string. *)
Theorem C1_roundtrip_fails_beyond_first_read :
  tarfile_members (Runtime := serving_bundle long_archive) long_archive
  = inr [file "data.json" long_json]
  ∧ json_decode (Runtime := serving_bundle long_archive)
      (data (file "data.json" long_json))
    = inr (PyStr long_text)
  ∧ (CHUNK < length long_archive)%nat
  ∧ (fetch_then_process (H := serving_bundle long_archive) 1 bundle_url
       (__init__ (event_of (Some bundle_url)))).1
    = Raise EOFError.
Proof.
  split.
  { vm_cast_no_check
      (eq_refl (A := exn + list TarInfo) (inr [file "data.json" long_json])). }
  split.
  { vm_cast_no_check (eq_refl (A := exn + pyvalue) (inr (PyStr long_text))). }
  split; [apply Nat.ltb_lt|]; vm_compute; reflexivity.
Qed.

(** C2, on the instance built for [bundle_url]. *)
Lemma C2_witness :
  attrs (__init__ (event_of (Some bundle_url))) !! "_event"
  = Some (PyEvent (event_of (Some bundle_url)))
  ∧ url (event_of (Some bundle_url)) = Some bundle_url
  ∧ attrs (__init__ (event_of (Some bundle_url))) !! "_url"
    = Some (PyStr bundle_url)
  ∧ (data <- _fetch_ ;; _process_ (H := serving_bundle a1_archive) data)%py
      (__init__ (event_of (Some bundle_url)))
    = (Raise TypeError,
       logged (__init__ (event_of (Some bundle_url)))
         [EvDebug "NginxCephFetchProvider fetching from " (PyStr bundle_url)]).
Proof.
  assert (attrs (__init__ (event_of (Some bundle_url))) !! "_event"
          = Some (PyEvent (event_of (Some bundle_url)))) as H1
    by (vm_compute; reflexivity).
  assert (url (event_of (Some bundle_url)) = Some bundle_url) as H2
    by reflexivity.
  assert (attrs (__init__ (event_of (Some bundle_url))) !! "_url"
          = Some (PyStr bundle_url)) as H3
    by (vm_compute; reflexivity).
  exact (conj H1 (conj H2 (conj H3
           (proj2 (C2_fetch_returns_unawaited_coroutine
                     (H := serving_bundle a1_archive) _ _ _ _ H1 H2 H3))))).
Defined.

(** C3 as stated fails on [readme_archive], whose only member is
    readme.txt: the fetch ends in the IndexError itself. *)
Lemma C3_counterexample :
  urlopen_body (Runtime := serving_bundle readme_archive) bundle_url
  = Some readme_archive
  ∧ tarfile_members (Runtime := serving_bundle readme_archive) readme_archive
    = inr [file "readme.txt" "hello"]
  ∧ Forall (fun m => is_json m = false) [file "readme.txt" "hello"]
  ∧ ¬ ∃ e,
        (fetch_tar_file_data (H := serving_bundle readme_archive) 1
           (PyStr bundle_url) (__init__ (event_of (Some bundle_url)))).1
        = Raise e
        ∧ e ≠ IndexError.
Proof.
  split; [vm_compute; reflexivity|].
  split; [vm_compute; reflexivity|].
  split; [repeat constructor|].
  intros (e & He & Hne). vm_compute in He. congruence.
Qed.

(** C3 (amended), on [readme_archive]. *)
Lemma C3_witness :
  urlopen_body (Runtime := serving_bundle readme_archive) bundle_url
  = Some readme_archive
  ∧ readme_archive ≠ []
  ∧ (length readme_archive ≤ CHUNK)%nat
  ∧ tarfile_members (Runtime := serving_bundle readme_archive) readme_archive
    = inr [file "readme.txt" "hello"]
  ∧ Forall (fun m => is_json m = false) [file "readme.txt" "hello"]
  ∧ fetch_tar_file_data (H := serving_bundle readme_archive) 1
      (PyStr bundle_url) (__init__ (event_of (Some bundle_url)))
    = (Raise IndexError,
       logged (__init__ (event_of (Some bundle_url)))
         (download_events bundle_url readme_archive
          ++ [EvOpened ArchiveReader])).
Proof.
  assert (urlopen_body (Runtime := serving_bundle readme_archive) bundle_url
          = Some readme_archive) as H1 by (vm_compute; reflexivity).
  assert (readme_archive ≠ []) as H2 by (vm_compute; discriminate).
  assert (length readme_archive ≤ CHUNK)%nat as H3
    by (apply Nat.leb_le; vm_compute; reflexivity).
  assert (tarfile_members (Runtime := serving_bundle readme_archive)
            readme_archive = inr [file "readme.txt" "hello"]) as H4
    by (vm_compute; reflexivity).
  assert (Forall (fun m => is_json m = false) [file "readme.txt" "hello"])
    as H5 by (repeat constructor).
  exact (conj H1 (conj H2 (conj H3 (conj H4 (conj H5
           (C3_no_json_member_raises_IndexError
              (H := serving_bundle readme_archive) 0 _ _ _ _
              H1 H2 H3 H4 H5)))))).
Defined.

(** C4 as stated fails on [twice_archive], which stores data.json twice:
    the first member in stored order holds [{"a":1}], the fetch returns the
    content of the second, [{"a":2}]. *)
Lemma C4_counterexample :
  urlopen_body (Runtime := serving_bundle twice_archive) bundle_url
  = Some twice_archive
  ∧ tarfile_members (Runtime := serving_bundle twice_archive) twice_archive
    = inr twice_members
  ∧ (2 ≤ length (List.filter is_json twice_members))%nat
  ∧ List.find is_json twice_members = Some (file "data.json" a1_json)
  ∧ (fetch_tar_file_data (H := serving_bundle twice_archive) 1
       (PyStr bundle_url) (__init__ (event_of (Some bundle_url)))).1
    = Ok (PyBytes (data (file "data.json" (dq "{'a':2}"))))
  ∧ (fetch_tar_file_data (H := serving_bundle twice_archive) 1
       (PyStr bundle_url) (__init__ (event_of (Some bundle_url)))).1
    ≠ Ok (PyBytes (data (file "data.json" a1_json))).
Proof.
  split; [vm_compute; reflexivity|].
  split; [vm_compute; reflexivity|].
  split; [vm_compute; lia|].
  split; [vm_compute; reflexivity|].
  split; [vm_compute; reflexivity|].
  vm_compute. discriminate.
Qed.

(** C4 (amended), on the archive with members readme.txt, data.json and
    extra.json: the content of data.json is returned. *)
Lemma C4_witness :
  urlopen_body (Runtime := serving_bundle three_archive) bundle_url
  = Some three_archive
  ∧ three_archive ≠ []
  ∧ (length three_archive ≤ CHUNK)%nat
  ∧ tarfile_members (Runtime := serving_bundle three_archive) three_archive
    = inr ([file "readme.txt" "hello"]
           ++ file "data.json" a1_json :: [file "extra.json" (dq "{'b':2}")])
  ∧ Forall (fun x => is_json x = false) [file "readme.txt" "hello"]
  ∧ is_json (file "data.json" a1_json) = true
  ∧ Forall (fun x => name x ≠ name (file "data.json" a1_json))
      [file "extra.json" (dq "{'b':2}")]
  ∧ type (file "data.json" a1_json) = REGTYPE
  ∧ fetch_tar_file_data (H := serving_bundle three_archive) 1
      (PyStr bundle_url) (__init__ (event_of (Some bundle_url)))
    = (Ok (PyBytes (data (file "data.json" a1_json))),
       logged (__init__ (event_of (Some bundle_url)))
         (download_events bundle_url three_archive
          ++ [EvOpened ArchiveReader; EvClosed ArchiveReader;
              EvClosed MemBuffer])).
Proof.
  assert (urlopen_body (Runtime := serving_bundle three_archive) bundle_url
          = Some three_archive) as H1 by (vm_compute; reflexivity).
  assert (three_archive ≠ []) as H2 by (vm_compute; discriminate).
  assert (length three_archive ≤ CHUNK)%nat as H3
    by (apply Nat.leb_le; vm_compute; reflexivity).
  assert (tarfile_members (Runtime := serving_bundle three_archive)
            three_archive
          = inr ([file "readme.txt" "hello"]
                 ++ file "data.json" a1_json
                    :: [file "extra.json" (dq "{'b':2}")])) as H4
    by (vm_compute; reflexivity).
  assert (Forall (fun x => is_json x = false) [file "readme.txt" "hello"])
    as H5 by (repeat constructor).
  assert (is_json (file "data.json" a1_json) = true) as H6 by reflexivity.
  assert (Forall (fun x => name x ≠ name (file "data.json" a1_json))
            [file "extra.json" (dq "{'b':2}")]) as H7
    by (repeat constructor; vm_compute; discriminate).
  assert (type (file "data.json" a1_json) = REGTYPE) as H8 by reflexivity.
  exact (conj H1 (conj H2 (conj H3 (conj H4 (conj H5 (conj H6 (conj H7
           (conj H8
              (C4_first_json_member_selected
                 (H := serving_bundle three_archive) 0 _ _ _ _ _ _
                 H1 H2 H3 H4 H5 H6 H7 H8))))))))).
Defined.

(** C5, on [long_archive]. *)
Lemma C5_witness :
  urlopen_body (Runtime := serving_bundle long_archive) bundle_url
  = Some long_archive
  ∧ (CHUNK < length long_archive)%nat
  ∧ ∃ r evs,
      fetch_tar_file_data (H := serving_bundle long_archive) 1
        (PyStr bundle_url) (__init__ (event_of (Some bundle_url)))
      = (r, logged (__init__ (event_of (Some bundle_url)))
              (download_events bundle_url (take CHUNK long_archive) ++ evs))
      ∧ take CHUNK long_archive ≠ long_archive
      ∧ drop CHUNK long_archive ≠ []
      ∧ Forall (fun e => ∀ a g, e ≠ EvRead a g) evs.
Proof.
  assert (urlopen_body (Runtime := serving_bundle long_archive) bundle_url
          = Some long_archive) as H1 by reflexivity.
  assert (CHUNK < length long_archive)%nat as H2
    by (apply Nat.ltb_lt; vm_compute; reflexivity).
  exact (conj H1 (conj H2
           (C5_archive_opened_on_first_chunk
              (H := serving_bundle long_archive) 0 _ _ _ H1 H2))).
Defined.

(** C6 as stated fails on [readme_archive]: the fetch ends in an error with
    the buffer opened and never closed. *)
Lemma C6_counterexample :
  opened MemBuffer
    (trace (fetch_tar_file_data (H := serving_bundle readme_archive) 1
              (PyStr bundle_url) (__init__ (event_of (Some bundle_url)))).2)
  = 1
  ∧ closed MemBuffer
      (trace (fetch_tar_file_data (H := serving_bundle readme_archive) 1
                (PyStr bundle_url) (__init__ (event_of (Some bundle_url)))).2)
    = 0
  ∧ ¬ ∀ r,
        opened r
          (trace (fetch_tar_file_data (H := serving_bundle readme_archive) 1
                    (PyStr bundle_url)
                    (__init__ (event_of (Some bundle_url)))).2)
        = closed r
            (trace (fetch_tar_file_data (H := serving_bundle readme_archive) 1
                      (PyStr bundle_url)
                      (__init__ (event_of (Some bundle_url)))).2).
Proof.
  split; [vm_compute; reflexivity|].
  split; [vm_compute; reflexivity|].
  intros Hall. specialize (Hall MemBuffer). vm_compute in Hall. discriminate.
Qed.

(** C6 (amended), on [a1_archive], whose member is returned. *)
Lemma C6_witness :
  ((∃ b, (fetch_tar_file_data (H := serving_bundle a1_archive) 1
            (PyStr bundle_url) (__init__ (event_of (Some bundle_url)))).1
         = Ok (PyBytes b))
   ∨ urlopen_body (Runtime := serving_bundle a1_archive) bundle_url = None)
  ∧ (∃ evs,
       trace (fetch_tar_file_data (H := serving_bundle a1_archive) 1
                (PyStr bundle_url) (__init__ (event_of (Some bundle_url)))).2
       = trace (__init__ (event_of (Some bundle_url))) ++ evs
       ∧ ∀ r, opened r evs = closed r evs ∧ (closed r evs ≤ 1)%nat)
  ∧ ∀ data w',
      trace (_process_ (H := serving_bundle a1_archive) data w').2 = trace w'.
Proof.
  assert ((∃ b, (fetch_tar_file_data (H := serving_bundle a1_archive) 1
                   (PyStr bundle_url)
                   (__init__ (event_of (Some bundle_url)))).1
                = Ok (PyBytes b))
          ∨ urlopen_body (Runtime := serving_bundle a1_archive) bundle_url
            = None) as H1.
  { left. eexists. vm_compute. reflexivity. }
  exact (conj H1
           (C6_resources_released_on_success
              (H := serving_bundle a1_archive) 0 _ _ H1)).
Defined.

(** C7 as stated fails for the empty URL: [_fetch_] takes it for a URL,
    logs no warning and returns the coroutine. *)
Lemma C7_counterexample :
  url (event_of (Some "")) = Some ""
  ∧ _fetch_ (__init__ (event_of (Some "")))
    = (Ok (PyCoroutine (PyStr "")),
       logged (__init__ (event_of (Some "")))
         [EvDebug "NginxCephFetchProvider fetching from " (PyStr "")])
  ∧ ¬ ∃ msg,
        In (EvWarning msg) (trace (_fetch_ (__init__ (event_of (Some "")))).2).
Proof.
  split; [reflexivity|]. split; [vm_compute; reflexivity|].
  intros [msg Hin]. vm_compute in Hin. destruct Hin as [Hin|[]]. discriminate.
Qed.

(** C7 (amended), on an event without URL. *)
Lemma C7_witness :
  attrs (__init__ (event_of None)) !! "_event" = Some (PyEvent (event_of None))
  ∧ url (event_of None) = None
  ∧ _fetch_ (__init__ (event_of None))
    = (Ok PyNone,
       logged (__init__ (event_of None))
         [EvWarning "incomplete fetcher config: fetcher require a url to specify from where data to fetch!"]).
Proof.
  assert (attrs (__init__ (event_of None)) !! "_event"
          = Some (PyEvent (event_of None))) as H1 by (vm_compute; reflexivity).
  assert (url (event_of None) = None) as H2 by reflexivity.
  exact (conj H1 (conj H2 (C7_missing_url_is_skipped _ _ H1 H2))).
Defined.

(** C8, on a network where nothing can be opened. *)
Lemma C8_witness :
  urlopen_body (Runtime := unreachable_net) bundle_url = None
  ∧ fetch_tar_file_data (H := unreachable_net) 1 (PyStr bundle_url)
      (__init__ (event_of (Some bundle_url)))
    = (Raise URLError,
       logged (__init__ (event_of (Some bundle_url)))
         [EvUrlopen (PyStr bundle_url)])
  ∧ (∀ fuel' v w',
       attempts (trace (fetch_tar_file_data (H := unreachable_net)
                          fuel' v w').2)
       = S (attempts (trace w')))
  ∧ (1 < rc_stop_after_attempt RETRY_CONFIG)%nat.
Proof.
  assert (urlopen_body (Runtime := unreachable_net) bundle_url = None) as H1
    by reflexivity.
  exact (conj H1
           (C8_single_attempt_no_retry (H := unreachable_net) 1 _ _ H1)).
Defined.

(** C9 as stated fails on a fresh instance whose event has no config:
    [__aenter__] fails on [connection_params], before [_connection] is
    read. *)
Lemma C9_counterexample :
  reachable (H := unreachable_net) (__init__ (event_of (Some bundle_url)))
  ∧ (__aenter__ (__init__ (event_of (Some bundle_url)))).1
    = Raise (AttributeError "connection_params")
  ∧ (__aenter__ (__init__ (event_of (Some bundle_url)))).1
    ≠ Raise (AttributeError "_connection").
Proof.
  split; [constructor|]. split; [vm_compute; reflexivity|].
  vm_compute. discriminate.
Qed.

(** With a config that has the attribute, [__aenter__] gets as far as
    [_connection]. *)
Example aenter_with_connection_params :
  (__aenter__
     (__init__ {| url := Some bundle_url;
                  fetcher := "NginxCephFetchProvider";
                  config := Some config_with_params |})).1
  = Raise (AttributeError "_connection").
Proof. vm_compute. reflexivity. Qed.

(** C9 (amended), on an instance that has run [_fetch_]. *)
Lemma C9_witness :
  reachable (H := unreachable_net)
    (after (H := unreachable_net) Op_fetch
       (__init__ (event_of (Some bundle_url))))
  ∧ (__aenter__ (after (H := unreachable_net) Op_fetch
                   (__init__ (event_of (Some bundle_url))))).1
    = Raise (AttributeError "connection_params")
  ∧ (__aexit__ (after (H := unreachable_net) Op_fetch
                  (__init__ (event_of (Some bundle_url))))).1
    = Raise (AttributeError "_transaction").
Proof.
  assert (reachable (H := unreachable_net)
            (after (H := unreachable_net) Op_fetch
               (__init__ (event_of (Some bundle_url))))) as H1
    by (repeat constructor).
  pose proof (C9_lifecycle_hooks_fail (H := unreachable_net) _ H1)
    as (_ & (e & He & Henter) & Hexit & _).
  split; [exact H1|]. split; [|exact Hexit].
  vm_compute in He. injection He as <-. exact Henter.
Defined.

(** C10, on a response without bytes. *)
Lemma C10_witness :
  urlopen_body (Runtime := serving_bundle []) bundle_url = Some []
  ∧ fetch_tar_file_data (H := serving_bundle []) 1 (PyStr bundle_url)
      (__init__ (event_of (Some bundle_url)))
    = (Ok PyNone,
       logged (__init__ (event_of (Some bundle_url)))
         [EvUrlopen (PyStr bundle_url); EvOpened NetStream;
          EvOpened MemBuffer; EvRead CHUNK 0]).
Proof.
  assert (urlopen_body (Runtime := serving_bundle []) bundle_url = Some [])
    as H1 by reflexivity.
  exact (conj H1
           (C10_empty_body_returns_None (H := serving_bundle []) 0 _ _ H1)).
Defined.

(* ===================================================================== *)
(** * Further properties of provider.py and test.py                       *)
(* ===================================================================== *)

(** ** Reads and writes of the download *)

Lemma reads_app tr1 tr2 : reads (tr1 ++ tr2) = reads tr1 + reads tr2.
Proof. unfold reads. by rewrite List.filter_app, length_app. Qed.

Lemma bytes_read_app tr1 tr2 :
  bytes_read (tr1 ++ tr2) = bytes_read tr1 + bytes_read tr2.
Proof.
  unfold bytes_read. induction tr1 as [|e tr1 IH]; [done|].
  cbn [app fold_right]. destruct e; lia.
Qed.

(** A write at the end of the buffer appends. *)
Lemma BytesIO_write_at_end b s w :
  BytesIO_write {| buf := b; pos := length b; buf_closed := false |} s w
  = (Ok {| buf := b ++ s; pos := length (b ++ s); buf_closed := false |}, w).
Proof.
  unfold BytesIO_write. cbn [buf_closed buf pos].
  rewrite take_ge, Nat.sub_diag, drop_ge, length_app by lia.
  cbn [replicate app]. by rewrite app_nil_r.
Qed.

(** The json decoder touches neither the attributes nor the log. *)
Lemma json_loads_run `{Runtime} v w : json_loads v w = ((json_loads v w).1, w).
Proof.
  unfold json_loads, of_sum.
  destruct v; try done; by destruct (json_decode _).
Qed.

Lemma json_loads_any_world `{Runtime} v w w' :
  (json_loads v w).1 = (json_loads v w').1.
Proof.
  unfold json_loads, of_sum.
  destruct v; try done; by destruct (json_decode _).
Qed.

Section Script.
Context `{Runtime}.

(** The download loop of test.py: with fuel for every pass it ends by
    [break], the buffer holding what it held before followed by the whole
    body, every byte read once. *)
Lemma download_loop fuel body b w :
  (length body < fuel)%nat →
  ∃ rds,
    while_break fuel download_loop_body
      ({| unread := body; resp_closed := false |},
       {| buf := b; pos := length b; buf_closed := false |}) w
    = (Ok ({| unread := []; resp_closed := false |},
           {| buf := b ++ body; pos := length (b ++ body);
              buf_closed := false |}),
       logged w rds)
    ∧ Forall (fun e => ∃ got, e = EvRead CHUNK got) rds
    ∧ bytes_read rds = length body
    ∧ (1 ≤ reads rds)%nat.
Proof.
  revert body b w. induction fuel as [|fuel IH]; intros body b w Hfuel;
    [lia|].
  destruct body as [|b0 body].
  - exists [EvRead CHUNK 0].
    cbn [while_break]. unfold download_loop_body at 1, stream_read.
    cbn [fst snd resp_closed unread]. mrun.
    rewrite take_nil, drop_nil. cbn [length]. mrun.
    rewrite bool_decide_eq_true_2 by done. mrun.
    rewrite app_nil_r. repeat split; eauto.
  - assert (length (drop CHUNK (b0 :: body)) < fuel)%nat as Hrest.
    { rewrite length_drop. pose proof CHUNK_pos. cbn [length] in *. lia. }
    destruct (IH (drop CHUNK (b0 :: body)) (b ++ take CHUNK (b0 :: body))
                (logged w [EvRead CHUNK (length (take CHUNK (b0 :: body)))])
                Hrest) as (rds & Hrun & Hall & Hbytes & Hn).
    rewrite <- app_assoc, take_drop in Hrun.
    exists (EvRead CHUNK (length (take CHUNK (b0 :: body))) :: rds).
    cbn [while_break]. unfold download_loop_body at 1, stream_read.
    cbn [fst snd resp_closed unread]. mrun.
    rewrite bool_decide_eq_false_2 by (by apply take_CHUNK_nonempty).
    rewrite bind_assoc. unfold bind at 1. rewrite BytesIO_write_at_end. mrun.
    rewrite Hrun, logged_logged. cbn [app].
    repeat split; eauto.
    + unfold bytes_read in *. cbn [fold_right]. rewrite Hbytes.
      rewrite length_take, length_drop. lia.
    + unfold reads in *. cbn. lia.
Qed.

(** The whole script, given fuel for every pass of its loop. *)
Lemma test_main_run fuel u body w :
  urlopen_body u = Some body →
  (length body < fuel)%nat →
  ∃ rds,
    Forall (fun e => ∃ got, e = EvRead CHUNK got) rds
    ∧ bytes_read rds = length body
    ∧ (1 ≤ reads rds)%nat
    ∧ test_main fuel u w
      = let w1 :=
          logged w ([EvUrlopen (PyStr u); EvOpened NetStream;
                     EvOpened MemBuffer]
                    ++ rds ++ [EvClosed NetStream; EvArchiveOpen body]) in
        match tarfile_members body with
        | inl e => (Raise e, w1)
        | inr ms =>
            match (extraction ms).1 with
            | Ok data =>
                match (json_loads data w1).1 with
                | Ok v =>
                    (Ok v,
                     logged w1 [EvOpened ArchiveReader;
                                EvClosed ArchiveReader; EvClosed MemBuffer])
                | Raise e => (Raise e, logged w1 [EvOpened ArchiveReader])
                | OutOfFuel => (OutOfFuel, logged w1 [EvOpened ArchiveReader])
                end
            | Raise e => (Raise e, logged w1 [EvOpened ArchiveReader])
            | OutOfFuel => (OutOfFuel, logged w1 [EvOpened ArchiveReader])
            end
        end.
Proof.
  intros Hnet Hfuel.
  destruct (download_loop fuel body []
              (logged w [EvUrlopen (PyStr u); EvOpened NetStream;
                         EvOpened MemBuffer]) Hfuel)
    as (rds & Hrun & Hall & Hbytes & Hn).
  cbn [app length] in Hrun.
  exists rds. do 3 (split; [done|]).
  unfold test_main, urlopen, BytesIO_new. rewrite Hnet. mrun.
  unfold bind at 1. rewrite Hrun. cbn [fst snd].
  unfold stream_close, BytesIO_seek, tarfile_open. mrun. rewrite drop_0.
  cbn zeta.
  destruct (tarfile_members body) as [e|ms]; mrun;
    [by rewrite <- ?app_assoc|].
  unfold extraction, getnames, list_index, extractfile. cbn [members].
  destruct (List.filter _ (map name ms)) as [|n names]; cbn [lookup].
  - mrun. by rewrite <- ?app_assoc.
  - cbn [list_lookup]. mrun.
    destruct (getmember {| members := ms |} n) as [m|]; mrun;
      [|by rewrite <- ?app_assoc].
    unfold extracted_read, TarFile_close, BytesIO_close.
    destruct (type m); mrun; try (by rewrite <- ?app_assoc). cbn [fst].
    rewrite <- ?app_assoc. cbn [app].
    unfold bind at 1. rewrite json_loads_run.
    match goal with
    | |- context [(json_loads ?v ?wa).1] =>
        match goal with
        | |- context [(json_loads v ?wb).1] =>
            lazymatch wa with
            | wb => fail
            | _ => rewrite (json_loads_any_world v wa wb)
            end
        end
    end.
    destruct (json_loads (PyBytes (data m)) _).1; mrun;
      by rewrite <- ?app_assoc.
Qed.

End Script.

(** ** Auxiliary facts on outcomes *)

Lemma extraction_not_out_of_fuel ms : (extraction ms).1 ≠ OutOfFuel.
Proof. by destruct (extraction_cases ms) as [[e ->]|[b ->]]. Qed.

Lemma json_loads_not_out_of_fuel `{Runtime} v w :
  (json_loads v w).1 ≠ OutOfFuel.
Proof.
  unfold json_loads, of_sum.
  destruct v; try done; by destruct (json_decode _).
Qed.

Lemma reads_only_counts rds r :
  Forall (fun e => ∃ got, e = EvRead CHUNK got) rds →
  opened r rds = 0 ∧ closed r rds = 0 ∧ attempts rds = 0.
Proof.
  induction 1 as [|e rds [got ->] _ IH]; [done|].
  unfold opened, closed, attempts in *. cbn. done.
Qed.

Lemma first_json_name ms m0 :
  List.find is_json ms = Some m0 →
  ∃ rest,
    List.filter (fun n => endswith n ".json") (map name ms)
    = name m0 :: rest.
Proof.
  induction ms as [|x ms IH]; [done|].
  cbn. unfold is_json at 1. destruct (endswith (name x) ".json").
  - intros [= ->]. eauto.
  - apply IH.
Qed.

Lemma getmember_last_named pre m post n :
  name m = n →
  Forall (fun x => name x ≠ n) post →
  getmember {| members := pre ++ m :: post |} n = Some m.
Proof. intros <-. apply getmember_last. Qed.

Section More.
Context `{Runtime}.

(** test.py buffers the whole body before the archive is handled: given
    fuel for every pass of the loop, reads of 16384 bytes are issued until
    one returns nothing, they return every byte of the body once, and only
    then is the stream closed and the archive reader given the body, all of
    it; the script ends with a value or an exception. *)
Theorem test_script_buffers_whole_body fuel u body w :
  urlopen_body u = Some body →
  (length body < fuel)%nat →
  ∃ rds r evs,
    test_main fuel u w
    = (r, logged w ([EvUrlopen (PyStr u); EvOpened NetStream;
                     EvOpened MemBuffer]
                    ++ rds ++ [EvClosed NetStream; EvArchiveOpen body]
                    ++ evs))
    ∧ Forall (fun e => ∃ got, e = EvRead CHUNK got) rds
    ∧ bytes_read rds = length body
    ∧ Forall (fun e => ∀ a g, e ≠ EvRead a g) evs
    ∧ r ≠ OutOfFuel.
Proof.
  intros Hnet Hfuel.
  destruct (test_main_run fuel u body w Hnet Hfuel)
    as (rds & Hall & Hbytes & _ & ->).
  exists rds. cbn zeta.
  assert (∀ (r : result pyvalue) evs0 evs,
            logged (logged w (evs0 ++ rds ++ [EvClosed NetStream;
                                              EvArchiveOpen body])) evs
            = logged w (evs0 ++ rds ++ [EvClosed NetStream;
                                        EvArchiveOpen body] ++ evs)) as Hl.
  { intros _ evs0 evs. rewrite logged_logged.
    by rewrite <- !app_assoc. }
  destruct (tarfile_members body) as [e|ms].
  - exists (Raise e), []. rewrite !app_nil_r. by repeat split.
  - pose proof (extraction_not_out_of_fuel ms) as Hx.
    destruct (extraction ms).1 as [data|e|]; [|
      eexists (Raise e), _; rewrite (Hl (Raise e));
      repeat split; [done..|by repeat constructor|done] |done].
    pose proof (json_loads_not_out_of_fuel data
                  (logged w ([EvUrlopen (PyStr u); EvOpened NetStream;
                              EvOpened MemBuffer]
                             ++ rds ++ [EvClosed NetStream;
                                        EvArchiveOpen body]))) as Hj.
    destruct (json_loads data _).1 as [v|e|]; [| |done].
    + eexists (Ok v), _. rewrite (Hl (Ok v)).
      repeat split; [done..|by repeat constructor|done].
    + eexists (Raise e), _. rewrite (Hl (Raise e)).
      repeat split; [done..|by repeat constructor|done].
Qed.

(** Round trip through test.py for an archive of any size: when the body
    is a well-formed archive whose single member is a regular [.json] file
    holding the encoding of [v], the script prints [v], and the stream, the
    buffer and the archive reader have each been opened once and closed
    once. *)
Theorem test_script_roundtrip fuel u body m v w :
  urlopen_body u = Some body →
  (length body < fuel)%nat →
  tarfile_members body = inr [m] →
  is_json m = true →
  type m = REGTYPE →
  json_decode (data m) = inr v →
  ∃ evs,
    test_main fuel u w = (Ok v, logged w evs)
    ∧ ∀ r, opened r evs = 1 ∧ closed r evs = 1.
Proof.
  intros Hnet Hfuel Hms Hjson Hty Hv.
  destruct (test_main_run fuel u body w Hnet Hfuel)
    as (rds & Hall & _ & _ & ->).
  cbn zeta. rewrite Hms.
  pose proof (extraction_first_json [] m [] (Forall_nil_2 _) Hjson
                (Forall_nil_2 _) Hty) as Hx.
  cbn [app] in Hx. rewrite Hx. cbn [fst].
  unfold json_loads at 1. rewrite Hv. cbn [of_sum ret fst].
  rewrite logged_logged. eexists. split; [reflexivity|].
  intros r. destruct (reads_only_counts rds r Hall) as (Ho & Hc & _).
  rewrite !opened_app, !closed_app, Ho, Hc.
  destruct r; vm_compute; done.
Qed.

(** For an archive that arrives in one read, the provider's fetch followed
    by its processing step and test.py end alike: the same value or the same
    exception. *)
Theorem provider_agrees_with_test_script fuel fuel' u body w :
  urlopen_body u = Some body →
  body ≠ [] →
  (length body ≤ CHUNK)%nat →
  (length body < fuel')%nat →
  (fetch_then_process (S fuel) u w).1 = (test_main fuel' u w).1.
Proof.
  intros Hnet Hne Hlen Hfuel.
  destruct (test_main_run fuel' u body w Hnet Hfuel)
    as (rds & _ & _ & _ & ->).
  unfold fetch_then_process, bind.
  rewrite (fetch_nonempty _ _ _ _ Hnet Hne). cbn zeta.
  rewrite (take_ge body CHUNK) by done.
  destruct (tarfile_members body) as [e|ms]; [done|].
  destruct (extraction ms) as [[data|e|] evs]; cbn [fst snd]; try done.
  unfold _process_.
  match goal with
  | |- context [json_loads data ?wa] =>
      match goal with
      | |- context [(json_loads data ?wb).1] =>
          lazymatch wa with
          | wb => fail
          | _ => rewrite (json_loads_run data wa),
                   (json_loads_any_world data wa wb)
          end
      end
  end.
  by destruct (json_loads data _).1.
Qed.

(** test.py closes the network stream exactly once on every run in which
    the URL could be opened, whatever the outcome. *)
Theorem test_script_closes_stream_once fuel u body w :
  urlopen_body u = Some body →
  (length body < fuel)%nat →
  ∃ evs,
    trace (test_main fuel u w).2 = trace w ++ evs
    ∧ opened NetStream evs = 1
    ∧ closed NetStream evs = 1.
Proof.
  intros Hnet Hfuel.
  destruct (test_main_run fuel u body w Hnet Hfuel)
    as (rds & Hall & _ & _ & ->).
  destruct (reads_only_counts rds NetStream Hall) as (Ho & Hc & _).
  cbn zeta.
  assert (∀ evs,
            evs = [] ∨ evs = [EvOpened ArchiveReader]
            ∨ evs = [EvOpened ArchiveReader; EvClosed ArchiveReader;
                     EvClosed MemBuffer] →
            opened NetStream
              (([EvUrlopen (PyStr u); EvOpened NetStream; EvOpened MemBuffer]
                ++ rds ++ [EvClosed NetStream; EvArchiveOpen body]) ++ evs)
            = 1
            ∧ closed NetStream
                (([EvUrlopen (PyStr u); EvOpened NetStream;
                   EvOpened MemBuffer]
                  ++ rds ++ [EvClosed NetStream; EvArchiveOpen body]) ++ evs)
              = 1) as Hcount.
  { intros evs Hevs. rewrite !opened_app, !closed_app, Ho, Hc.
    destruct Hevs as [->|[->| ->]]; vm_compute; done. }
  destruct (tarfile_members body) as [e|ms].
  - exists (([EvUrlopen (PyStr u); EvOpened NetStream; EvOpened MemBuffer]
              ++ rds ++ [EvClosed NetStream; EvArchiveOpen body]) ++ []).
    split; [by rewrite app_nil_r|]. apply Hcount. eauto.
  - destruct (extraction ms).1 as [data|e|];
      [destruct (json_loads data _).1 as [v|e|]|..];
      cbn [snd]; rewrite logged_logged;
      (eexists; split; [reflexivity|]; apply Hcount; eauto).
Qed.

End More.

(** ** The provider's fetch *)

Section Fetching.
Context `{Runtime}.

(** The fetch reads the response once: one read of at most 16384 bytes,
    whatever the length of the body and whatever follows. *)
Theorem fetch_reads_once fuel u body w :
  urlopen_body u = Some body →
  ∃ evs,
    trace (fetch_tar_file_data (S fuel) (PyStr u) w).2 = trace w ++ evs
    ∧ reads evs = 1
    ∧ bytes_read evs = Nat.min CHUNK (length body).
Proof.
  intros Hnet. destruct body as [|b0 body].
  - rewrite (fetch_empty _ _ _ Hnet). eexists. split; [reflexivity|].
    split; [done|]. unfold bytes_read. cbn [fold_right length]. lia.
  - rewrite (fetch_nonempty _ _ _ _ Hnet) by done. cbn zeta.
    assert (∀ evs, evs = [] ∨ evs = [EvOpened ArchiveReader]
                   ∨ evs = [EvOpened ArchiveReader; EvClosed ArchiveReader;
                            EvClosed MemBuffer] →
              reads (download_events u (take CHUNK (b0 :: body)) ++ evs) = 1
              ∧ bytes_read (download_events u (take CHUNK (b0 :: body))
                            ++ evs)
                = Nat.min CHUNK (length (b0 :: body))) as Hcount.
    { intros evs Hevs. rewrite reads_app, bytes_read_app.
      unfold download_events.
      assert (reads evs = 0 ∧ bytes_read evs = 0) as [-> ->]
        by (destruct Hevs as [->|[->| ->]]; done).
      unfold reads, bytes_read. cbn [List.filter fold_right length].
      rewrite length_take. cbn [length]. lia. }
    destruct (tarfile_members (take CHUNK (b0 :: body))) as [e|ms].
    + exists (download_events u (take CHUNK (b0 :: body)) ++ []).
      split; [by rewrite app_nil_r|]. apply Hcount. eauto.
    + eexists. split; [reflexivity|]. apply Hcount.
      destruct (extraction_cases ms) as [[e ->]|[b ->]]; eauto.
Qed.

(** The [while True:] of the fetch ends in its first pass: every positive
    fuel gives the result of fuel 1, and that result is a value or an
    exception. *)
Theorem fetch_loop_ends_in_first_pass fuel v w :
  fetch_tar_file_data (S fuel) v w = fetch_tar_file_data 1 v w
  ∧ (fetch_tar_file_data (S fuel) v w).1 ≠ OutOfFuel.
Proof.
  assert ((∃ s, v = PyStr s) ∨ (∀ s, v ≠ PyStr s)) as [[u ->]|Hv]
    by (destruct v; eauto).
  - destruct (urlopen_body u) as [[|b0 body]|] eqn:Hnet.
    + by rewrite !(fetch_empty _ _ _ Hnet).
    + rewrite !(fetch_nonempty _ _ _ _ Hnet) by done. cbn zeta.
      split; [done|].
      destruct (tarfile_members _) as [e|ms]; [done|].
      apply extraction_not_out_of_fuel.
    + by rewrite !(fetch_unreachable _ _ _ Hnet).
  - by rewrite !fetch_not_a_string.
Qed.


(** A name stored more than once denotes its last member: when the first
    name ending in [.json] is that of [m0], and [m] is the last member of
    that name, a regular file, the fetch returns the content of [m]. *)
Theorem fetch_returns_last_member_of_first_json_name
    fuel u body pre m post m0 w :
  urlopen_body u = Some body →
  body ≠ [] →
  tarfile_members (take CHUNK body) = inr (pre ++ m :: post) →
  List.find is_json (pre ++ m :: post) = Some m0 →
  name m = name m0 →
  Forall (fun x => name x ≠ name m0) post →
  type m = REGTYPE →
  fetch_tar_file_data (S fuel) (PyStr u) w
  = (Ok (PyBytes (data m)),
     logged w (download_events u (take CHUNK body)
               ++ [EvOpened ArchiveReader; EvClosed ArchiveReader;
                   EvClosed MemBuffer])).
Proof.
  intros Hnet Hne Hms Hfirst Hname Hpost Hty.
  rewrite (fetch_nonempty _ _ _ _ Hnet Hne). cbn zeta. rewrite Hms.
  destruct (first_json_name _ _ Hfirst) as [rest Hnames].
  unfold extraction. rewrite Hnames.
  by rewrite (getmember_last_named _ _ _ _ Hname Hpost), Hty.
Qed.

(** When the member the selected name denotes is not a regular file (a
    directory, a FIFO, a device), [extractfile] gives None and the fetch
    fails with the AttributeError of [None.read()], the buffer and the
    archive reader left open. *)
Theorem fetch_of_non_file_member_fails fuel u body pre m post m0 w :
  urlopen_body u = Some body →
  body ≠ [] →
  tarfile_members (take CHUNK body) = inr (pre ++ m :: post) →
  List.find is_json (pre ++ m :: post) = Some m0 →
  name m = name m0 →
  Forall (fun x => name x ≠ name m0) post →
  type m ≠ REGTYPE →
  fetch_tar_file_data (S fuel) (PyStr u) w
  = (Raise (AttributeError "read"),
     logged w (download_events u (take CHUNK body)
               ++ [EvOpened ArchiveReader])).
Proof.
  intros Hnet Hne Hms Hfirst Hname Hpost Hty.
  rewrite (fetch_nonempty _ _ _ _ Hnet Hne). cbn zeta. rewrite Hms.
  destruct (first_json_name _ _ Hfirst) as [rest Hnames].
  unfold extraction. rewrite Hnames.
  rewrite (getmember_last_named _ _ _ _ Hname Hpost).
  by destruct (type m).
Qed.

(** The attributes in a reachable state are those [__init__] built. *)
Lemma reachable_attrs w :
  reachable w → ∃ e, attrs w = attrs (__init__ e).
Proof.
  induction 1 as [e|o w Hw [e He]]; [by exists e|].
  exists e. rewrite <- He.
  destruct (init_attrs e) as (Hev & _ & Hc & _). rewrite <- He in Hev, Hc.
  destruct o; cbn [after].
  - by rewrite (aenter_fails _ _ Hev Hc).
  - apply keeps_aexit.
  - apply keeps_fetch.
  - apply keeps_process.
  - apply keeps_fetch_tar_file_data.
  - apply keeps_await.
Qed.


(** In every reachable state [_fetch_] returns without raising and without
    a call of [urlopen]: None after the warning when the event has no URL,
    and otherwise the coroutine of [fetch_tar_file_data] for the event's
    URL after the debug line. *)
Theorem fetch_method_never_fails w :
  reachable w →
  ∃ e,
    attrs w !! "_event" = Some (PyEvent e)
    ∧ ((url e = None
        ∧ _fetch_ w
          = (Ok PyNone,
             logged w [EvWarning "incomplete fetcher config: fetcher require a url to specify from where data to fetch!"]))
       ∨ (∃ u, url e = Some u
               ∧ _fetch_ w
                 = (Ok (PyCoroutine (PyStr u)),
                    logged w [EvDebug "NginxCephFetchProvider fetching from "
                                (PyStr u)]))).
Proof.
  intros Hw. destruct (reachable_attrs w Hw) as [e0 He0].
  destruct (init_attrs e0) as (Hev & Hurl & _). rewrite <- He0 in Hev, Hurl.
  exists (parse_event e0). split; [done|].
  destruct (url e0) as [u|] eqn:Hu.
  - right. exists u. split; [done|].
    by apply (fetch_with_url _ (parse_event e0) u).
  - left. split; [done|]. by apply (fetch_without_url _ (parse_event e0)).
Qed.

End Fetching.

(** Whatever [_fetch_] returns, [_process_] raises a TypeError on it: the
    result is None or a coroutine object, never text or bytes. *)
Theorem process_of_fetch_result_raises `{Runtime} w v w' w'' :
  _fetch_ w = (Ok v, w') →
  _process_ v w'' = (Raise TypeError, w'').
Proof.
  unfold _fetch_, self_event, bind, getattr_self.
  destruct (attrs w !! "_event") as [[]|]; try done.
  cbn. destruct (url e); cbn.
  - destruct (attrs w !! "_url") as [x|]; [|done]. cbn.
    destruct (attrs w !! "_url"); [|done]. by intros [= <- _].
  - by intros [= <- _].
Qed.

(** Had the coroutine that [_fetch_] returns been awaited, the pipeline
    would give the parsed member: on a fresh instance whose URL serves, in
    one read, an archive with a single regular [.json] member encoding [v],
    [_fetch_], [await] and [_process_] in sequence return [v]. *)
Theorem awaited_fetch_roundtrip `{Runtime} fuel e u body m v :
  url e = Some u →
  urlopen_body u = Some body →
  body ≠ [] →
  (length body ≤ CHUNK)%nat →
  tarfile_members body = inr [m] →
  is_json m = true →
  type m = REGTYPE →
  json_decode (data m) = inr v →
  (c <- _fetch_ ;; data <- await (S fuel) c ;; _process_ data) (__init__ e)
  = (Ok v,
     logged (__init__ e)
       (EvDebug "NginxCephFetchProvider fetching from " (PyStr u)
        :: download_events u body
        ++ [EvOpened ArchiveReader; EvClosed ArchiveReader;
            EvClosed MemBuffer])).
Proof.
  intros Hu Hnet Hne Hlen Hms Hjson Hty Hv.
  destruct (init_attrs e) as (Hev & Hurl & _). rewrite Hu in Hurl.
  unfold bind at 1.
  rewrite (fetch_with_url _ (parse_event e) u (PyStr u) Hev Hu Hurl).
  cbn [await].
  pose proof (roundtrip_first_chunk fuel u body m v
                (logged (__init__ e)
                   [EvDebug "NginxCephFetchProvider fetching from " (PyStr u)])
                Hnet Hne Hlen Hms Hjson Hty Hv) as Hrt.
  unfold fetch_then_process in Hrt. rewrite Hrt.
  by rewrite logged_logged.
Qed.

(** ** The selection predicate *)

Lemma substring_all s : String.substring 0 (String.length s) s = s.
Proof. induction s as [|c s IH]; [done|]. simpl. by f_equal. Qed.

Lemma length_append_string p s :
  String.length (p +:+ s) = String.length p + String.length s.
Proof. induction p as [|c p IH]; [done|]. simpl. by f_equal. Qed.

Lemma substring_after_prefix p s :
  String.substring (String.length p) (String.length s) (p +:+ s) = s.
Proof. induction p as [|c p IH]; [apply substring_all|]. by simpl. Qed.

Lemma substring_is_suffix s k m :
  k + m = String.length s → ∃ p, s = p +:+ String.substring k m s.
Proof.
  revert k. induction s as [|c s IH]; intros k Hk.
  - exists "". cbn in Hk. assert (k = 0) as -> by lia.
    assert (m = 0) as -> by lia. done.
  - destruct k as [|k].
    + exists "". rewrite Nat.add_0_l in Hk. subst m.
      by rewrite substring_all.
    + cbn in Hk. destruct (IH k) as [p Hp]; [lia|].
      exists (String c p).
      change (String c s = String c (p +:+ String.substring k m s)).
      by rewrite <- Hp.
Qed.

Lemma endswith_iff_suffix s suffix :
  endswith s suffix = true ↔ ∃ p, s = p +:+ suffix.
Proof.
  unfold endswith. split.
  - destruct (Nat.leb_spec (String.length suffix) (String.length s))
      as [Hle|Hlt]; [|done].
    intros Heq. apply String.eqb_eq in Heq.
    destruct (substring_is_suffix s (String.length s - String.length suffix)
                (String.length suffix)) as [p Hp]; [lia|].
    exists p. by rewrite Heq in Hp.
  - intros [p ->]. rewrite length_append_string.
    destruct (Nat.leb_spec (String.length suffix)
                (String.length p + String.length suffix)) as [_|Hlt]; [|lia].
    replace (String.length p + String.length suffix - String.length suffix)
      with (String.length p) by lia.
    rewrite substring_after_prefix. apply String.eqb_refl.
Qed.

(** The names the fetch selects from (lines 162-164) are exactly the member
    names made of some prefix, possibly empty, followed by the literal
    suffix [.json]. *)
Theorem selected_names_are_json_suffixed (t : TarFile) (n : string) :
  In n (List.filter (fun filename => endswith filename ".json") (getnames t))
  ↔ In n (getnames t) ∧ ∃ p, n = p +:+ ".json".
Proof. by rewrite List.filter_In, endswith_iff_suffix. Qed.

(** ** The further properties on concrete archives *)

(** test.py on [long_archive], which takes two reads. *)
Lemma test_script_buffers_whole_body_witness :
  urlopen_body (Runtime := serving_bundle long_archive) bundle_url
  = Some long_archive
  ∧ (length long_archive < S (length long_archive))%nat
  ∧ ∃ rds r evs,
      test_main (H := serving_bundle long_archive) (S (length long_archive))
        bundle_url (__init__ (event_of (Some bundle_url)))
      = (r, logged (__init__ (event_of (Some bundle_url)))
              ([EvUrlopen (PyStr bundle_url); EvOpened NetStream;
                EvOpened MemBuffer]
               ++ rds ++ [EvClosed NetStream; EvArchiveOpen long_archive]
               ++ evs))
      ∧ Forall (fun e => ∃ got, e = EvRead CHUNK got) rds
      ∧ bytes_read rds = length long_archive
      ∧ Forall (fun e => ∀ a g, e ≠ EvRead a g) evs
      ∧ r ≠ OutOfFuel.
Proof.
  assert (urlopen_body (Runtime := serving_bundle long_archive) bundle_url
          = Some long_archive) as H1 by reflexivity.
  assert (length long_archive < S (length long_archive))%nat as H2 by lia.
  exact (conj H1 (conj H2
           (test_script_buffers_whole_body
              (H := serving_bundle long_archive) _ _ _ _ H1 H2))).
Defined.

(** test.py on [long_archive]: the string of 20000 letters is printed. *)
Lemma test_script_roundtrip_witness :
  urlopen_body (Runtime := serving_bundle long_archive) bundle_url
  = Some long_archive
  ∧ (length long_archive < S (length long_archive))%nat
  ∧ tarfile_members (Runtime := serving_bundle long_archive) long_archive
    = inr [file "data.json" long_json]
  ∧ is_json (file "data.json" long_json) = true
  ∧ type (file "data.json" long_json) = REGTYPE
  ∧ json_decode (Runtime := serving_bundle long_archive)
      (data (file "data.json" long_json))
    = inr (PyStr long_text)
  ∧ ∃ evs,
      test_main (H := serving_bundle long_archive) (S (length long_archive))
        bundle_url (__init__ (event_of (Some bundle_url)))
      = (Ok (PyStr long_text),
         logged (__init__ (event_of (Some bundle_url))) evs)
      ∧ ∀ r, opened r evs = 1 ∧ closed r evs = 1.
Proof.
  assert (urlopen_body (Runtime := serving_bundle long_archive) bundle_url
          = Some long_archive) as H1 by reflexivity.
  assert (length long_archive < S (length long_archive))%nat as H2 by lia.
  assert (tarfile_members (Runtime := serving_bundle long_archive)
            long_archive = inr [file "data.json" long_json]) as H3.
  { vm_cast_no_check
      (eq_refl (A := exn + list TarInfo) (inr [file "data.json" long_json])). }
  assert (is_json (file "data.json" long_json) = true) as H4
    by reflexivity.
  assert (type (file "data.json" long_json) = REGTYPE) as H5 by reflexivity.
  assert (json_decode (Runtime := serving_bundle long_archive)
            (data (file "data.json" long_json))
          = inr (PyStr long_text)) as H6.
  { vm_cast_no_check (eq_refl (A := exn + pyvalue) (inr (PyStr long_text))). }
  exact (conj H1 (conj H2 (conj H3 (conj H4 (conj H5 (conj H6
           (test_script_roundtrip
              (H := serving_bundle long_archive) _ _ _ _ _ _
              H1 H2 H3 H4 H5 H6))))))).
Defined.

(** Provider and test.py on [a1_archive]. *)
Lemma provider_agrees_with_test_script_witness :
  urlopen_body (Runtime := serving_bundle a1_archive) bundle_url
  = Some a1_archive
  ∧ a1_archive ≠ []
  ∧ (length a1_archive ≤ CHUNK)%nat
  ∧ (length a1_archive < S (length a1_archive))%nat
  ∧ (fetch_then_process (H := serving_bundle a1_archive) 1 bundle_url
       (__init__ (event_of (Some bundle_url)))).1
    = (test_main (H := serving_bundle a1_archive) (S (length a1_archive))
         bundle_url (__init__ (event_of (Some bundle_url)))).1.
Proof.
  assert (urlopen_body (Runtime := serving_bundle a1_archive) bundle_url
          = Some a1_archive) as H1 by reflexivity.
  assert (a1_archive ≠ []) as H2 by (vm_compute; discriminate).
  assert (length a1_archive ≤ CHUNK)%nat as H3
    by (apply Nat.leb_le; vm_compute; reflexivity).
  assert (length a1_archive < S (length a1_archive))%nat as H4 by lia.
  exact (conj H1 (conj H2 (conj H3 (conj H4
           (provider_agrees_with_test_script
              (H := serving_bundle a1_archive) 0 _ _ _ _ H1 H2 H3 H4))))).
Defined.

(** test.py on [readme_archive], on which it ends in an IndexError. *)
Lemma test_script_closes_stream_once_witness :
  urlopen_body (Runtime := serving_bundle readme_archive) bundle_url
  = Some readme_archive
  ∧ (length readme_archive < S (length readme_archive))%nat
  ∧ ∃ evs,
      trace (test_main (H := serving_bundle readme_archive)
               (S (length readme_archive)) bundle_url
               (__init__ (event_of (Some bundle_url)))).2
      = trace (__init__ (event_of (Some bundle_url))) ++ evs
      ∧ opened NetStream evs = 1
      ∧ closed NetStream evs = 1.
Proof.
  assert (urlopen_body (Runtime := serving_bundle readme_archive) bundle_url
          = Some readme_archive) as H1 by reflexivity.
  assert (length readme_archive < S (length readme_archive))%nat as H2
    by lia.
  exact (conj H1 (conj H2
           (test_script_closes_stream_once
              (H := serving_bundle readme_archive) _ _ _ _ H1 H2))).
Defined.

(** The provider on [long_archive]: one read of 16384 bytes. *)
Lemma fetch_reads_once_witness :
  urlopen_body (Runtime := serving_bundle long_archive) bundle_url
  = Some long_archive
  ∧ ∃ evs,
      trace (fetch_tar_file_data (H := serving_bundle long_archive) 1
               (PyStr bundle_url) (__init__ (event_of (Some bundle_url)))).2
      = trace (__init__ (event_of (Some bundle_url))) ++ evs
      ∧ reads evs = 1
      ∧ bytes_read evs = Nat.min CHUNK (length long_archive).
Proof.
  assert (urlopen_body (Runtime := serving_bundle long_archive) bundle_url
          = Some long_archive) as H1 by reflexivity.
  exact (conj H1
           (fetch_reads_once (H := serving_bundle long_archive) 0 _ _ _ H1)).
Defined.


(** The provider on [twice_archive]: the second data.json is returned. *)
Lemma fetch_returns_last_member_of_first_json_name_witness :
  urlopen_body (Runtime := serving_bundle twice_archive) bundle_url
  = Some twice_archive
  ∧ twice_archive ≠ []
  ∧ tarfile_members (Runtime := serving_bundle twice_archive)
      (take CHUNK twice_archive)
    = inr ([file "data.json" a1_json]
           ++ file "data.json" (dq "{'a':2}") :: [])
  ∧ List.find is_json ([file "data.json" a1_json]
                       ++ file "data.json" (dq "{'a':2}") :: [])
    = Some (file "data.json" a1_json)
  ∧ name (file "data.json" (dq "{'a':2}")) = name (file "data.json" a1_json)
  ∧ Forall (fun x => name x ≠ name (file "data.json" a1_json)) []
  ∧ type (file "data.json" (dq "{'a':2}")) = REGTYPE
  ∧ fetch_tar_file_data (H := serving_bundle twice_archive) 1
      (PyStr bundle_url) (__init__ (event_of (Some bundle_url)))
    = (Ok (PyBytes (data (file "data.json" (dq "{'a':2}")))),
       logged (__init__ (event_of (Some bundle_url)))
         (download_events bundle_url (take CHUNK twice_archive)
          ++ [EvOpened ArchiveReader; EvClosed ArchiveReader;
              EvClosed MemBuffer])).
Proof.
  assert (urlopen_body (Runtime := serving_bundle twice_archive) bundle_url
          = Some twice_archive) as H1 by reflexivity.
  assert (twice_archive ≠ []) as H2 by (vm_compute; discriminate).
  assert (tarfile_members (Runtime := serving_bundle twice_archive)
            (take CHUNK twice_archive)
          = inr ([file "data.json" a1_json]
                 ++ file "data.json" (dq "{'a':2}") :: [])) as H3
    by (vm_compute; reflexivity).
  assert (List.find is_json ([file "data.json" a1_json]
                             ++ file "data.json" (dq "{'a':2}") :: [])
          = Some (file "data.json" a1_json)) as H4 by reflexivity.
  assert (name (file "data.json" (dq "{'a':2}"))
          = name (file "data.json" a1_json)) as H5 by reflexivity.
  assert (Forall (fun x => name x ≠ name (file "data.json" a1_json)) [])
    as H6 by constructor.
  assert (type (file "data.json" (dq "{'a':2}")) = REGTYPE) as H7
    by reflexivity.
  exact (conj H1 (conj H2 (conj H3 (conj H4 (conj H5 (conj H6 (conj H7
           (fetch_returns_last_member_of_first_json_name
              (H := serving_bundle twice_archive) 0 _ _ _ _ _ _ _
              H1 H2 H3 H4 H5 H6 H7)))))))).
Defined.

(** The provider on [directory_archive], whose first [.json] name is a
    directory. *)
Lemma fetch_of_non_file_member_fails_witness :
  urlopen_body (Runtime := serving_bundle directory_archive) bundle_url
  = Some directory_archive
  ∧ directory_archive ≠ []
  ∧ tarfile_members (Runtime := serving_bundle directory_archive)
      (take CHUNK directory_archive)
    = inr ([] ++ json_directory :: [file "data.json" a1_json])
  ∧ List.find is_json ([] ++ json_directory :: [file "data.json" a1_json])
    = Some json_directory
  ∧ name json_directory = name json_directory
  ∧ Forall (fun x => name x ≠ name json_directory)
      [file "data.json" a1_json]
  ∧ type json_directory ≠ REGTYPE
  ∧ fetch_tar_file_data (H := serving_bundle directory_archive) 1
      (PyStr bundle_url) (__init__ (event_of (Some bundle_url)))
    = (Raise (AttributeError "read"),
       logged (__init__ (event_of (Some bundle_url)))
         (download_events bundle_url (take CHUNK directory_archive)
          ++ [EvOpened ArchiveReader])).
Proof.
  assert (urlopen_body (Runtime := serving_bundle directory_archive)
            bundle_url = Some directory_archive) as H1 by reflexivity.
  assert (directory_archive ≠ []) as H2 by (vm_compute; discriminate).
  assert (tarfile_members (Runtime := serving_bundle directory_archive)
            (take CHUNK directory_archive)
          = inr ([] ++ json_directory :: [file "data.json" a1_json])) as H3
    by (vm_compute; reflexivity).
  assert (List.find is_json
            ([] ++ json_directory :: [file "data.json" a1_json])
          = Some json_directory) as H4 by reflexivity.
  assert (name json_directory = name json_directory) as H5 by reflexivity.
  assert (Forall (fun x => name x ≠ name json_directory)
            [file "data.json" a1_json]) as H6
    by (repeat constructor; vm_compute; discriminate).
  assert (type json_directory ≠ REGTYPE) as H7 by discriminate.
  exact (conj H1 (conj H2 (conj H3 (conj H4 (conj H5 (conj H6 (conj H7
           (fetch_of_non_file_member_fails
              (H := serving_bundle directory_archive) 0 _ _ _ _ _ _ _
              H1 H2 H3 H4 H5 H6 H7)))))))).
Defined.


(** [_fetch_] called a second time on the same instance. *)
Lemma fetch_method_never_fails_witness :
  reachable (H := unreachable_net)
    (after (H := unreachable_net) Op_fetch
       (__init__ (event_of (Some bundle_url))))
  ∧ ∃ v w',
      _fetch_ (after (H := unreachable_net) Op_fetch
                 (__init__ (event_of (Some bundle_url))))
      = (Ok v, w').
Proof.
  assert (reachable (H := unreachable_net)
            (after (H := unreachable_net) Op_fetch
               (__init__ (event_of (Some bundle_url))))) as H1
    by (repeat constructor).
  split; [exact H1|].
  destruct (fetch_method_never_fails (H := unreachable_net) _ H1)
    as (e & _ & [[_ Hf]|(u & _ & Hf)]); rewrite Hf; eauto.
Defined.

(** The None that [_fetch_] returns for an event without URL. *)
Lemma process_of_fetch_result_raises_witness :
  _fetch_ (__init__ (event_of None))
  = (Ok PyNone,
     logged (__init__ (event_of None))
       [EvWarning "incomplete fetcher config: fetcher require a url to specify from where data to fetch!"])
  ∧ _process_ (H := unreachable_net) PyNone (__init__ (event_of None))
    = (Raise TypeError, __init__ (event_of None)).
Proof.
  assert (_fetch_ (__init__ (event_of None))
          = (Ok PyNone,
             logged (__init__ (event_of None))
               [EvWarning "incomplete fetcher config: fetcher require a url to specify from where data to fetch!"]))
    as H1 by (vm_compute; reflexivity).
  exact (conj H1
           (process_of_fetch_result_raises (H := unreachable_net)
              _ _ _ (__init__ (event_of None)) H1)).
Defined.

(** The awaited pipeline on [a1_archive]. *)
Lemma awaited_fetch_roundtrip_witness :
  url (event_of (Some bundle_url)) = Some bundle_url
  ∧ urlopen_body (Runtime := serving_bundle a1_archive) bundle_url
    = Some a1_archive
  ∧ a1_archive ≠ []
  ∧ (length a1_archive ≤ CHUNK)%nat
  ∧ tarfile_members (Runtime := serving_bundle a1_archive) a1_archive
    = inr [file "data.json" a1_json]
  ∧ is_json (file "data.json" a1_json) = true
  ∧ type (file "data.json" a1_json) = REGTYPE
  ∧ json_decode (Runtime := serving_bundle a1_archive)
      (data (file "data.json" a1_json))
    = inr (PyDict [("a", PyInt 1)])
  ∧ (c <- _fetch_ ;;
     data <- await (H := serving_bundle a1_archive) 1 c ;;
     _process_ (H := serving_bundle a1_archive) data)%py
      (__init__ (event_of (Some bundle_url)))
    = (Ok (PyDict [("a", PyInt 1)]),
       logged (__init__ (event_of (Some bundle_url)))
         (EvDebug "NginxCephFetchProvider fetching from " (PyStr bundle_url)
          :: download_events bundle_url a1_archive
          ++ [EvOpened ArchiveReader; EvClosed ArchiveReader;
              EvClosed MemBuffer])).
Proof.
  assert (url (event_of (Some bundle_url)) = Some bundle_url) as H0
    by reflexivity.
  assert (urlopen_body (Runtime := serving_bundle a1_archive) bundle_url
          = Some a1_archive) as H1 by reflexivity.
  assert (a1_archive ≠ []) as H2 by (vm_compute; discriminate).
  assert (length a1_archive ≤ CHUNK)%nat as H3
    by (apply Nat.leb_le; vm_compute; reflexivity).
  assert (tarfile_members (Runtime := serving_bundle a1_archive) a1_archive
          = inr [file "data.json" a1_json]) as H4
    by (vm_compute; reflexivity).
  assert (is_json (file "data.json" a1_json) = true) as H5 by reflexivity.
  assert (type (file "data.json" a1_json) = REGTYPE) as H6 by reflexivity.
  assert (json_decode (Runtime := serving_bundle a1_archive)
            (data (file "data.json" a1_json))
          = inr (PyDict [("a", PyInt 1)])) as H7
    by (vm_compute; reflexivity).
  exact (conj H0 (conj H1 (conj H2 (conj H3 (conj H4 (conj H5 (conj H6
           (conj H7
              (awaited_fetch_roundtrip
                 (H := serving_bundle a1_archive) 0 _ _ _ _ _
                 H0 H1 H2 H3 H4 H5 H6 H7))))))))).
Defined.
